(** * Morrowind BAIN support: the installer extension of [index.js]

    A shallow embedding of the Vortex extension that recognises archives laid
    out in the BAIN convention (top-level folders such as [00 Core/]) and
    turns the user's choice of folders into copy instructions.

    JavaScript strings are sequences of UTF-16 code units; the archive
    listing is a list of such strings.  The host (Vortex) is represented by
    the function it offers the extension, [showDialog]; logging is a writer
    effect, and exceptions and promise rejections are explicit results. *)

From Stdlib Require Import List ZArith NArith Bool String Ascii Lia Permutation.
Import ListNotations.

Open Scope Z_scope.

(** ** JavaScript strings *)

Definition code_unit := N.
Definition jsstring := list code_unit.

(** A string literal of the source, as code units. *)
Definition js (s : string) : jsstring :=
  List.map N_of_ascii (list_ascii_of_string s).

Definition unit_eqb (a b : code_unit) : bool := N.eqb a b.

(** [a === b] on strings. *)
Fixpoint strictEq (a b : jsstring) : bool :=
  match a, b with
  | [], [] => true
  | x :: a', y :: b' => unit_eqb x y && strictEq a' b'
  | _, _ => false
  end.

(** [s.startsWith(prefix)]. *)
Fixpoint startsWith (s prefix : jsstring) : bool :=
  match prefix, s with
  | [], _ => true
  | p :: prefix', c :: s' => unit_eqb c p && startsWith s' prefix'
  | _ :: _, [] => false
  end.

(** [s.endsWith(c)] for a search string of one code unit, as [path.sep] is. *)
Definition endsWith (s : jsstring) (c : code_unit) : bool :=
  match rev s with
  | [] => false
  | x :: _ => unit_eqb x c
  end.

(** [s.indexOf(c)], scanning from index [i]: the first index, or -1. *)
Fixpoint indexOf_from (i : Z) (s : jsstring) (c : code_unit) : Z :=
  match s with
  | [] => -1
  | x :: s' => if unit_eqb x c then i else indexOf_from (i + 1) s' c
  end.

Definition indexOf (s : jsstring) (c : code_unit) : Z := indexOf_from 0 s c.

(** [s.lastIndexOf(c)]: the last index seen so far is carried in [found]. *)
Fixpoint lastIndexOf_from (i found : Z) (s : jsstring) (c : code_unit) : Z :=
  match s with
  | [] => found
  | x :: s' => lastIndexOf_from (i + 1) (if unit_eqb x c then i else found) s' c
  end.

Definition lastIndexOf (s : jsstring) (c : code_unit) : Z :=
  lastIndexOf_from 0 (-1) s c.

(** [items.join(glue)]. *)
Fixpoint join (glue : jsstring) (items : list jsstring) : jsstring :=
  match items with
  | [] => []
  | [x] => x
  | x :: rest => x ++ glue ++ join glue rest
  end.

(** [xs.map((x, index) => f(x, index))]. *)
Fixpoint mapi_from {A B : Type} (i : nat) (f : A -> nat -> B) (xs : list A) : list B :=
  match xs with
  | [] => []
  | x :: rest => f x i :: mapi_from (S i) f rest
  end.

Definition mapi {A B : Type} (f : A -> nat -> B) (xs : list A) : list B :=
  mapi_from 0%nat f xs.

Fixpoint dropWhile {A : Type} (p : A -> bool) (xs : list A) : list A :=
  match xs with
  | [] => []
  | x :: rest => if p x then dropWhile p rest else xs
  end.

Fixpoint takeWhile {A : Type} (p : A -> bool) (xs : list A) : list A :=
  match xs with
  | [] => []
  | x :: rest => if p x then x :: takeWhile p rest else []
  end.

(** ** Node's [path] module, POSIX flavour

    [index.js] imports [path] from the platform.  The functions it calls are
    modelled here as Node documents and implements them for POSIX paths:
    the separator is the slash, [basename] is the last portion of a path with
    trailing separators ignored, and [relative] resolves both paths against
    the working directory, normalises them and walks from one to the other. *)

Module Path.

Definition sep : code_unit := 47%N.
Definition dot : code_unit := 46%N.

Definition isSep (c : code_unit) : bool := unit_eqb c sep.

(** [path.basename(p)]: scan from the end, skip the trailing separators,
    then keep everything up to the next separator. *)
Definition basename (p : jsstring) : jsstring :=
  rev (takeWhile (fun c => negb (isSep c)) (dropWhile isSep (rev p))).

(** The portions of a path between separators; a path of [n] separators
    has [n + 1] portions, some of them possibly empty. *)
Fixpoint split (p : jsstring) : list jsstring :=
  match p with
  | [] => [[]]
  | c :: p' =>
      if isSep c then [] :: split p'
      else match split p' with
           | seg :: segs => (c :: seg) :: segs
           | [] => [[c]]
           end
  end.

Definition isEmptySeg (seg : jsstring) : bool :=
  match seg with [] => true | _ => false end.
Definition isDotSeg (seg : jsstring) : bool := strictEq seg [dot].
Definition isDotDotSeg (seg : jsstring) : bool := strictEq seg [dot; dot].

(** One step of Node's [normalizeString] for an absolute path: empty and
    [.] portions are dropped, [..] removes the portion before it (and is
    dropped at the root), any other portion is appended. *)
Definition normalizeStep (stack : list jsstring) (seg : jsstring) : list jsstring :=
  if isEmptySeg seg || isDotSeg seg then stack
  else if isDotDotSeg seg then removelast stack
  else stack ++ [seg].

Definition normalizeSegments (segs : list jsstring) : list jsstring :=
  fold_left normalizeStep segs [].

(** [path.resolve(p)] with working directory [cwd] (an absolute path), as
    the portions of the resulting absolute path. *)
Definition resolve (cwd p : jsstring) : list jsstring :=
  match p with
  | [] => normalizeSegments (split cwd)
  | c :: _ =>
      if isSep c then normalizeSegments (split p)
      else normalizeSegments (split (cwd ++ sep :: p))
  end.

Fixpoint segs_eqb (a b : list jsstring) : bool :=
  match a, b with
  | [], [] => true
  | x :: a', y :: b' => strictEq x y && segs_eqb a' b'
  | _, _ => false
  end.

(** Drop the longest common leading run of portions. *)
Fixpoint dropCommon (from to : list jsstring) : list jsstring * list jsstring :=
  match from, to with
  | x :: from', y :: to' =>
      if strictEq x y then dropCommon from' to' else (from, to)
  | _, _ => (from, to)
  end.

(** [path.relative(from, to)]. *)
Definition relative (cwd from to : jsstring) : jsstring :=
  if strictEq from to then []
  else
    let from' := resolve cwd from in
    let to' := resolve cwd to in
    if segs_eqb from' to' then []
    else
      let '(up, down) := dropCommon from' to' in
      join [sep] (List.map (fun _ => [dot; dot]) up ++ down).

End Path.

(** ** Constants *)

Definition GAME_ID : jsstring := js "morrowind".

(** [\d] without the unicode flag: the ten ASCII digits. *)
Definition isDigit (c : code_unit) : bool :=
  (N.leb 48 c && N.leb c 57)%N.

(** [\s]: the white space and line terminator code units of ECMAScript. *)
Definition isWhiteSpace (c : code_unit) : bool :=
  ((N.leb 9 c && N.leb c 13) || N.eqb c 32 || N.eqb c 160 || N.eqb c 5760
   || (N.leb 8192 c && N.leb c 8202) || N.eqb c 8232 || N.eqb c 8233
   || N.eqb c 8239 || N.eqb c 8287 || N.eqb c 12288 || N.eqb c 65279)%N.

(** [BAIN_FOLDER_PATTERN.test(s)] for [/^\d{2}\s/]; the pattern has no [g]
    or [y] flag, so [test] keeps no state between calls. *)
Definition BAIN_FOLDER_PATTERN_test (s : jsstring) : bool :=
  match s with
  | a :: b :: c :: _ => isDigit a && isDigit b && isWhiteSpace c
  | _ => false
  end.

(** ** Helper functions *)

Definition isDirectory (file : jsstring) : bool := endsWith file Path.sep.

Definition isFile (file : jsstring) : bool := negb (endsWith file Path.sep).

Definition isTopLevel (file : jsstring) : bool :=
  Z.eqb (indexOf file Path.sep) (lastIndexOf file Path.sep).

Definition isTopLevelDirectory (file : jsstring) : bool :=
  isDirectory file && isTopLevel file.

Definition isFileInSelectedFolder (file : jsstring) (selectedFolders : list jsstring) : bool :=
  existsb (fun folder => startsWith file folder) selectedFolders.

(** ** Core functions *)

Definition getBainFolders (files : list jsstring) : list jsstring :=
  filter (fun file => isTopLevelDirectory file && BAIN_FOLDER_PATTERN_test file) files.

(** ** Exceptions, promises and the log *)

(** The values that are thrown, or that a promise rejects with.  A host may
    reject its dialog with any value: an error object, whose [message] can
    be read, or [undefined] or [null], of which no property can be read. *)
Inductive js_error : Type :=
| UserCanceled (arg : jsstring)    (* [new util.UserCanceled(arg)] of vortex-api *)
| TypeError (message : jsstring)   (* raised by the platform *)
| HostError (message : jsstring)   (* any other error object of the host's dialog *)
| ThrownUndefined                  (* a rejection with [undefined] *)
| ThrownNull.                      (* a rejection with [null] *)

(** The outcome of evaluating an expression that may throw. *)
Inductive completion (A : Type) : Type :=
| Return (a : A)
| Throw (e : js_error).
Arguments Return {A} a.
Arguments Throw {A} e.

Definition bind {A B : Type} (c : completion A) (k : A -> completion B) : completion B :=
  match c with
  | Return a => k a
  | Throw e => Throw e
  end.

Notation "x <- c ;; k" := (bind c (fun x => k))
  (at level 61, c at next level, right associativity).

Fixpoint mapM {A B : Type} (f : A -> completion B) (xs : list A) : completion (list B) :=
  match xs with
  | [] => Return []
  | x :: rest => y <- f x ;; ys <- mapM f rest ;; Return (y :: ys)
  end.

(** A settled promise. *)
Inductive promise (A : Type) : Type :=
| Resolved (a : A)
| Rejected (e : js_error).
Arguments Resolved {A} a.
Arguments Rejected {A} e.

Record SupportedResult : Type := {
  supported : bool;
  requiredFiles : list jsstring
}.

Record Instruction : Type := {
  instr_type : jsstring;
  source : jsstring;
  destination : jsstring
}.

(** What [installContent] resolves with: the bare [[]] of the catch branch,
    or the object [{ instructions }]. *)
Inductive InstallResult : Type :=
| EmptyArray
| InstructionsObject (instructions : list Instruction).

Inductive LogLevel : Type := Debug | Error.

(** A logged message; the JSON rendering of the instructions is kept as the
    instructions themselves. *)
Inductive LogMessage : Type :=
| Text (s : jsstring)
| TextWithJson (s : jsstring) (instructions : list Instruction).

Definition LogEntry : Type := (LogLevel * LogMessage)%type.

(** ** The host's dialog *)

Record Checkbox : Type := {
  cb_id : jsstring;
  cb_text : jsstring;
  cb_value : bool
}.

Record DialogContent : Type := {
  dlg_text : jsstring;
  checkboxes : list Checkbox
}.

(** An action button; [act_default] is [None] where the property is absent. *)
Record DialogAction : Type := {
  label : jsstring;
  act_default : option bool
}.

(** The host's answer: the chosen action and the entries of [input] in
    property order, as [Object.entries] and [Object.values] enumerate them. *)
Record DialogResult : Type := {
  action : jsstring;
  input : list (jsstring * bool)
}.

Record Api : Type := {
  showDialog : jsstring -> jsstring -> DialogContent -> list DialogAction ->
               completion DialogResult
}.

Record Context : Type := {
  api : Api
}.

(** The checkboxes handed to the dialog (lines 82-86). *)
Definition dialogCheckboxes (bainFolders : list jsstring) : list Checkbox :=
  mapi (fun folder index =>
          {| cb_id := folder;
             cb_text := Path.basename folder;
             cb_value := Nat.eqb index 0 |}) bainFolders.

(** The actions handed to the dialog (lines 87-90). *)
Definition dialogActions : list DialogAction :=
  [ {| label := js "Cancel"; act_default := None |};
    {| label := js "Continue"; act_default := Some true |} ].

(** What the dialog step makes of the host's answer (lines 92-100). *)
Definition selectionOf (result : DialogResult) : completion (list jsstring) :=
  if strictEq (action result) (js "Cancel")
     || negb (existsb (fun value => value) (List.map snd (input result)))
  then Throw (UserCanceled (js "No folders selected or action canceled."))
  else Return (List.map fst (filter (fun entry => snd entry) (input result))).

Definition showFolderSelectionDialog (bainFolders : list jsstring) (context : Context)
  : completion (list jsstring) :=
  result <- showDialog (api context) (js "question") (js "Choose BAIN Options")
              {| dlg_text := js "Choose the folders you want to install:";
                 checkboxes := dialogCheckboxes bainFolders |}
              dialogActions ;;
  selectionOf result.

Definition testSupportedContent (files : list jsstring) (gameId : jsstring)
  : promise SupportedResult :=
  let supported :=
    strictEq gameId GAME_ID && (0 <? Z.of_nat (List.length (getBainFolders files))) in
  Resolved {| supported := supported; requiredFiles := [] |}.

Section Installer.

(** The working directory of the process, against which [path.relative]
    resolves its arguments. *)
Variable cwd : jsstring.

(** The [message] that vortex-api's [UserCanceled] constructor gives the
    error it builds from its argument. *)
Variable userCanceledMessage : jsstring -> jsstring.

(** [error.message] in the catch block (line 115): the message of an error
    object, and a [TypeError] of the platform when [error] is [undefined]
    or [null]. *)
Definition errorMessage (e : js_error) : completion jsstring :=
  match e with
  | UserCanceled arg => Return (userCanceledMessage arg)
  | TypeError message => Return message
  | HostError message => Return message
  | ThrownUndefined =>
      Throw (TypeError (js "Cannot read properties of undefined (reading 'message')"))
  | ThrownNull =>
      Throw (TypeError (js "Cannot read properties of null (reading 'message')"))
  end.

(** [find] yields [undefined] when no folder matches, and [path.relative]
    rejects an argument that is not a string. *)
Definition getRelativePath (file : jsstring) (selectedFolders : list jsstring)
  : completion jsstring :=
  match find (fun folder => startsWith file folder) selectedFolders with
  | Some bainFolder => Return (Path.relative cwd bainFolder file)
  | None =>
      Throw (TypeError
               (js "The " ++ [34%N] ++ js "from" ++ [34%N]
                ++ js " argument must be of type string. Received undefined"))
  end.

Definition installContent (files : list jsstring) (context : Context)
  : list LogEntry * promise InstallResult :=
  let bainFolders := getBainFolders files in
  let log1 := (Debug, Text (js "BAIN folders: " ++ join (js ", ") bainFolders)) in
  match showFolderSelectionDialog bainFolders context with
  | Throw error =>
      match errorMessage error with
      | Return message =>
          ([log1; (Error, Text (js "Dialog error: " ++ message))],
           Resolved EmptyArray)
      | Throw raised => ([log1], Rejected raised)
      end
  | Return selectedFolders =>
      let log2 :=
        (Debug, Text (js "Selected folders: " ++ join (js ", ") selectedFolders)) in
      let filtered :=
        filter (fun file => isFile file && isFileInSelectedFolder file selectedFolders)
               files in
      let log3 := (Debug, Text (js "Filtered files: " ++ join (js ", ") filtered)) in
      match mapM (fun file =>
                    dest <- getRelativePath file selectedFolders ;;
                    Return {| instr_type := js "copy";
                              source := file;
                              destination := dest |}) filtered with
      | Throw e => ([log1; log2; log3], Rejected e)
      | Return instructions =>
          ([log1; log2; log3;
            (Debug, TextWithJson (js "Generated instructions: ") instructions)],
           Resolved (InstructionsObject instructions))
      end
  end.

End Installer.

(** ** Vocabulary of the specification *)

(** Number of occurrences of the separator in an entry. *)
Definition sepCount (entry : jsstring) : nat :=
  List.length (filter Path.isSep entry).

(** "The entry contains at most one separator occurrence." *)
Definition atMostOneSep (entry : jsstring) : bool :=
  Nat.leb (sepCount entry) 1.

(** "The entry has no separator before its final character." *)
Definition noSepBeforeLast (entry : jsstring) : bool :=
  negb (existsb Path.isSep (removelast entry)).

(** "At most one separator occurrence and, when a directory, that separator
    is the trailing one." *)
Definition topLevelAsWorded (entry : jsstring) : bool :=
  atMostOneSep entry && implb (isDirectory entry) (noSepBeforeLast entry).

(** The three-part BAIN predicate of the specification. *)
Definition isBainFolder (entry : jsstring) : bool :=
  isDirectory entry && isTopLevel entry
  && BAIN_FOLDER_PATTERN_test (Path.basename entry).

(** A portion that normalisation keeps as it is: not empty, not [.] and
    not [..]. *)
Definition isPlainSeg (seg : jsstring) : bool :=
  negb (Path.isEmptySeg seg || Path.isDotSeg seg || Path.isDotDotSeg seg).

(** A relative path made of plain portions only. *)
Definition isPlainPath (p : jsstring) : bool :=
  forallb isPlainSeg (Path.split p).

(** The first portion of a path. *)
Definition firstSegment (p : jsstring) : jsstring :=
  hd [] (Path.split p).

(** The host answers for the checkboxes it was given and no others. *)
Definition answersCheckboxes (content : DialogContent) (result : DialogResult) : Prop :=
  forall entry, In entry (input result) ->
                In (fst entry) (List.map cb_id (checkboxes content)).

(** The dialog content that [showFolderSelectionDialog] sends. *)
Definition dialogContent (bainFolders : list jsstring) : DialogContent :=
  {| dlg_text := js "Choose the folders you want to install:";
     checkboxes := dialogCheckboxes bainFolders |}.

(** The entries that the installer keeps for a selection (lines 121-123). *)
Definition keptFiles (files selectedFolders : list jsstring) : list jsstring :=
  filter (fun file => isFile file && isFileInSelectedFolder file selectedFolders) files.

(** The copy instruction of a kept file: its destination is relative to the
    first selected folder that begins its path. *)
Definition instructionFor (cwd : jsstring) (selectedFolders : list jsstring)
  (file : jsstring) : Instruction :=
  {| instr_type := js "copy";
     source := file;
     destination :=
       match find (fun folder => startsWith file folder) selectedFolders with
       | Some bainFolder => Path.relative cwd bainFolder file
       | None => []
       end |}.

(** The instructions that a settled installation carries; the bare array
    of the catch branch carries none. *)
Definition instructionsOf (r : promise InstallResult) : list Instruction :=
  match r with
  | Resolved (InstructionsObject instructions) => instructions
  | _ => []
  end.

(** The host honours the dialog it is asked to show: whenever it answers,
    it answers for the checkboxes it was given. *)
Definition honoursDialog (context : Context) (bainFolders : list jsstring) : Prop :=
  forall result,
    showDialog (api context) (js "question") (js "Choose BAIN Options")
      (dialogContent bainFolders) dialogActions = Return result ->
    answersCheckboxes (dialogContent bainFolders) result.

(** Every file of the listing is a path of plain portions. *)
Definition hasPlainFiles (files : list jsstring) : bool :=
  forallb (fun file => implb (isFile file) (isPlainPath file)) files.

(** The input of an answer that leaves every tick as it was offered. *)
Definition defaultInput (content : DialogContent) : list (jsstring * bool) :=
  List.map (fun box => (cb_id box, cb_value box)) (checkboxes content).

Definition isErrorEntry (entry : LogEntry) : bool :=
  match fst entry with
  | Error => true
  | Debug => false
  end.

(** * Properties *)

(** ** Strings *)

Lemma unit_eqb_eq a b : unit_eqb a b = true <-> a = b.
Proof. apply N.eqb_eq. Qed.

Lemma unit_eqb_refl a : unit_eqb a a = true.
Proof. apply N.eqb_refl. Qed.

Lemma strictEq_eq a : forall b, strictEq a b = true <-> a = b.
Proof.
  induction a as [|x a IH]; intros [|y b]; simpl; split; intro H;
    try reflexivity; try discriminate.
  - apply andb_true_iff in H as [Hx Hab].
    apply unit_eqb_eq in Hx. apply IH in Hab. congruence.
  - injection H as -> ->. rewrite unit_eqb_refl. simpl. now apply IH.
Qed.

Lemma strictEq_refl a : strictEq a a = true.
Proof. now apply strictEq_eq. Qed.

Lemma startsWith_prefix s : forall prefix,
  startsWith s prefix = true <-> exists rest, s = prefix ++ rest.
Proof.
  induction s as [|c s IH]; intros [|p prefix]; simpl.
  - split; [now exists [] | reflexivity].
  - split; [discriminate | intros [rest H]; discriminate].
  - split; [now exists (c :: s) | reflexivity].
  - rewrite andb_true_iff, unit_eqb_eq, IH. split.
    + intros [-> [rest ->]]. now exists rest.
    + intros [rest H]. injection H as -> ->. split; [reflexivity | now exists rest].
Qed.

Lemma startsWith_app prefix rest : startsWith (prefix ++ rest) prefix = true.
Proof. apply startsWith_prefix. now exists rest. Qed.

Lemma endsWith_suffix s c :
  endsWith s c = true <-> exists q, s = q ++ [c].
Proof.
  unfold endsWith. split.
  - destruct (rev s) as [|x r] eqn:E; [discriminate|].
    intro H. apply unit_eqb_eq in H. subst x.
    exists (rev r). rewrite <- (rev_involutive s), E. reflexivity.
  - intros [q ->]. rewrite rev_app_distr. simpl. apply unit_eqb_refl.
Qed.

Lemma endsWith_snoc q x c : endsWith (q ++ [x]) c = unit_eqb x c.
Proof. unfold endsWith. rewrite rev_app_distr. reflexivity. Qed.

(** ** Occurrences of the separator and the two index searches *)

Lemma sepCount_cons c s :
  sepCount (c :: s) = if Path.isSep c then S (sepCount s) else sepCount s.
Proof. unfold sepCount. simpl. now destruct (Path.isSep c). Qed.

Lemma sepCount_app a b : sepCount (a ++ b) = (sepCount a + sepCount b)%nat.
Proof. unfold sepCount. now rewrite filter_app, length_app. Qed.

Lemma sepCount_zero s : sepCount s = 0%nat <-> existsb Path.isSep s = false.
Proof.
  induction s as [|c s IH]; [easy|].
  rewrite sepCount_cons. simpl. destruct (Path.isSep c); simpl; [easy | exact IH].
Qed.

Lemma sepCount_zero_In s : sepCount s = 0%nat <-> ~ In Path.sep s.
Proof.
  induction s as [|c s IH]; [easy|].
  rewrite sepCount_cons. simpl. unfold Path.isSep.
  destruct (unit_eqb c Path.sep) eqn:E.
  - apply unit_eqb_eq in E. split; [discriminate | intro H; exfalso; apply H; now left].
  - rewrite IH. split.
    + intros H [H1 | H1]; [|now apply H].
      subst c. rewrite unit_eqb_refl in E. discriminate.
    + intros H H1. apply H. now right.
Qed.

Lemma head_not_sep c s : ~ In Path.sep (c :: s) -> Path.isSep c = false.
Proof.
  intro H. apply not_true_iff_false. intro Hc.
  apply unit_eqb_eq in Hc. apply H. now left.
Qed.

Lemma tail_no_sep c s : ~ In Path.sep (c :: s) -> ~ In Path.sep s.
Proof. intros H Hin. apply H. now right. Qed.

Lemma lastIndexOf_from_absent s c : forall i found,
  existsb (fun x => unit_eqb x c) s = false ->
  lastIndexOf_from i found s c = found.
Proof.
  induction s as [|x s IH]; intros i found H; simpl in *; [reflexivity|].
  apply orb_false_iff in H as [Hx Hs]. rewrite Hx. now apply IH.
Qed.

Lemma lastIndexOf_from_lower s c : forall i found,
  found < i ->
  existsb (fun x => unit_eqb x c) s = true ->
  i <= lastIndexOf_from i found s c.
Proof.
  induction s as [|x s IH]; intros i found Hlt H; simpl in *; [discriminate|].
  destruct (unit_eqb x c) eqn:Hx; simpl in H.
  - destruct (existsb (fun y => unit_eqb y c) s) eqn:Hs.
    + specialize (IH (i + 1) i ltac:(lia) eq_refl). lia.
    + rewrite lastIndexOf_from_absent by assumption. lia.
  - specialize (IH (i + 1) found ltac:(lia) H). lia.
Qed.

Lemma index_searches_agree s : forall i,
  Z.eqb (indexOf_from i s Path.sep) (lastIndexOf_from i (-1) s Path.sep)
  = Nat.leb (sepCount s) 1.
Proof.
  induction s as [|x s IH]; intro i; [reflexivity|].
  rewrite sepCount_cons. simpl. unfold Path.isSep.
  destruct (unit_eqb x Path.sep) eqn:Hx; [|apply IH].
  destruct (existsb Path.isSep s) eqn:Hs.
  - pose proof (lastIndexOf_from_lower s Path.sep (i + 1) i ltac:(lia) Hs) as Hlow.
    assert (sepCount s <> 0%nat) as Hne.
    { intro H0. apply sepCount_zero in H0. congruence. }
    destruct (sepCount s) as [|n]; [contradiction|]. simpl.
    apply Z.eqb_neq. lia.
  - rewrite lastIndexOf_from_absent by exact Hs.
    apply sepCount_zero in Hs. rewrite Hs. apply Z.eqb_refl.
Qed.

Lemma isTopLevel_atMostOneSep p : isTopLevel p = atMostOneSep p.
Proof. apply index_searches_agree. Qed.

Lemma removelast_snoc {A : Type} (q : list A) (x : A) : removelast (q ++ [x]) = q.
Proof. rewrite removelast_app by discriminate. simpl. apply app_nil_r. Qed.

Lemma noSepBeforeLast_atMostOneSep p :
  noSepBeforeLast p = true -> atMostOneSep p = true.
Proof.
  unfold noSepBeforeLast, atMostOneSep.
  destruct p as [|x q _] using rev_ind; [reflexivity|].
  rewrite removelast_snoc, sepCount_app, negb_true_iff. intro H.
  apply sepCount_zero in H. rewrite H, sepCount_cons. simpl.
  now destruct (Path.isSep x).
Qed.

Lemma directory_topLevel_noSepBeforeLast p :
  isDirectory p = true -> atMostOneSep p = noSepBeforeLast p.
Proof.
  unfold isDirectory, atMostOneSep, noSepBeforeLast. intro H.
  apply endsWith_suffix in H as [q ->].
  rewrite removelast_snoc, sepCount_app, sepCount_cons.
  change (Path.isSep Path.sep) with true. cbv iota.
  change (sepCount []) with 0%nat.
  destruct (existsb Path.isSep q) eqn:E; simpl.
  - destruct (sepCount q) eqn:Hc; [|now rewrite Nat.add_comm].
    apply sepCount_zero in Hc. congruence.
  - apply sepCount_zero in E. now rewrite E.
Qed.

(** ** Directories and files *)

(** C7: [isDirectory] and [isFile] are complementary on every path entry,
    and [isDirectory] holds exactly of the entries that end with the
    separator character. *)
Theorem isDirectory_complements_isFile (p : jsstring) :
  isDirectory p = negb (isFile p) /\
  (isDirectory p = true <-> exists q, p = q ++ [Path.sep]) /\
  (isFile p = true <-> ~ exists q, p = q ++ [Path.sep]).
Proof.
  unfold isFile, isDirectory. rewrite negb_involutive.
  split; [reflexivity|]. split; [apply endsWith_suffix|].
  rewrite negb_true_iff, <- not_true_iff_false. now rewrite endsWith_suffix.
Qed.

(** ** Top-level entries *)

(** C5, as amended: [isTopLevel] holds exactly of the entries with at most
    one separator, which is the first wording of the specification; for a
    directory this is the same as having no separator before the final
    character, and an entry with no separator before its final character is
    always top-level; for an entry that is not a directory the second
    wording can fail where [isTopLevel] holds. *)
Theorem isTopLevel_characterised (p : jsstring) :
  isTopLevel p = atMostOneSep p /\
  isTopLevel p = topLevelAsWorded p /\
  (isDirectory p = true -> isTopLevel p = noSepBeforeLast p) /\
  (noSepBeforeLast p = true -> isTopLevel p = true).
Proof.
  rewrite isTopLevel_atMostOneSep. repeat split.
  - unfold topLevelAsWorded. destruct (isDirectory p) eqn:D; simpl.
    + rewrite (directory_topLevel_noSepBeforeLast p D). now destruct (noSepBeforeLast p).
    + now rewrite andb_true_r.
  - apply directory_topLevel_noSepBeforeLast.
  - apply noSepBeforeLast_atMostOneSep.
Qed.

(** At the directory [00 Core/] the hypotheses of the characterisation hold. *)
Lemma isTopLevel_characterised_witness :
  isDirectory (js "00 Core/") = true /\
  noSepBeforeLast (js "00 Core/") = true /\
  isTopLevel (js "00 Core/") = noSepBeforeLast (js "00 Core/") /\
  isTopLevel (js "00 Core/") = true.
Proof.
  assert (D : isDirectory (js "00 Core/") = true) by reflexivity.
  assert (N : noSepBeforeLast (js "00 Core/") = true) by reflexivity.
  destruct (isTopLevel_characterised (js "00 Core/")) as [_ [_ [Hdir Htop]]].
  split; [exact D|]. split; [exact N|]. split; [exact (Hdir D) | exact (Htop N)].
Defined.

(** C5, as worded: the nested file [a/b] is top-level for the code and for
    the first wording, yet it has a separator before its final character. *)
Lemma isTopLevel_wordings_disagree :
  let entry := js "a/b" in
  isFile entry = true /\
  isTopLevel entry = true /\
  topLevelAsWorded entry = true /\
  noSepBeforeLast entry = false /\
  ~ (isTopLevel entry = true <-> noSepBeforeLast entry = true).
Proof.
  repeat split; try reflexivity.
  intros [H _]. specialize (H eq_refl). discriminate H.
Qed.

(** ** Top-level directories *)

(** A top-level directory is a name without separator followed by the
    separator. *)
Lemma isTopLevelDirectory_shape d :
  isTopLevelDirectory d = true <->
  exists name, d = name ++ [Path.sep] /\ ~ In Path.sep name.
Proof.
  unfold isTopLevelDirectory. rewrite andb_true_iff. split.
  - intros [D T].
    rewrite isTopLevel_atMostOneSep, (directory_topLevel_noSepBeforeLast d D) in T.
    apply endsWith_suffix in D as [name ->]. exists name. split; [reflexivity|].
    unfold noSepBeforeLast in T. rewrite removelast_snoc, negb_true_iff in T.
    now apply sepCount_zero_In, sepCount_zero.
  - intros [name [-> Hn]].
    assert (D : isDirectory (name ++ [Path.sep]) = true).
    { apply endsWith_suffix. now exists name. }
    split; [exact D|].
    rewrite isTopLevel_atMostOneSep, (directory_topLevel_noSepBeforeLast _ D).
    unfold noSepBeforeLast. rewrite removelast_snoc, negb_true_iff.
    now apply sepCount_zero, sepCount_zero_In.
Qed.

Lemma first_separator_unique (a : jsstring) : forall b r1 r2,
  ~ In Path.sep a -> ~ In Path.sep b ->
  a ++ Path.sep :: r1 = b ++ Path.sep :: r2 -> a = b.
Proof.
  induction a as [|x a IH]; intros [|y b] r1 r2 Ha Hb H; simpl in *.
  - reflexivity.
  - injection H as H _. exfalso. apply Hb. now left.
  - injection H as H _. exfalso. apply Ha. now left.
  - injection H as -> H. f_equal.
    apply (IH b r1 r2); [intro; apply Ha; now right | intro; apply Hb; now right | exact H].
Qed.

(** Two top-level directories that both begin a path are the same string. *)
Lemma containing_folder_unique f d1 d2 :
  isTopLevelDirectory d1 = true -> isTopLevelDirectory d2 = true ->
  startsWith f d1 = true -> startsWith f d2 = true -> d1 = d2.
Proof.
  intros T1 T2 S1 S2.
  apply isTopLevelDirectory_shape in T1 as [n1 [-> H1]].
  apply isTopLevelDirectory_shape in T2 as [n2 [-> H2]].
  apply startsWith_prefix in S1 as [r1 E1].
  apply startsWith_prefix in S2 as [r2 E2].
  rewrite <- !app_assoc in *. simpl in *.
  f_equal. apply (first_separator_unique n1 n2 r1 r2 H1 H2). congruence.
Qed.

Lemma find_first_match (f : jsstring) (folders : list jsstring) (d : jsstring) :
  find (fun folder => startsWith f folder) folders = Some d ->
  In d folders /\ startsWith f d = true.
Proof. apply find_some. Qed.

Lemma find_when_some_matches (f : jsstring) (folders : list jsstring) :
  isFileInSelectedFolder f folders = true ->
  exists d, find (fun folder => startsWith f folder) folders = Some d.
Proof.
  unfold isFileInSelectedFolder. intro H.
  destruct (find (fun folder => startsWith f folder) folders) as [d|] eqn:E.
  - now exists d.
  - apply existsb_exists in H as [x [Hin Hx]].
    pose proof (find_none _ _ E x Hin) as Hn. simpl in Hn. congruence.
Qed.

(** Among top-level directories, [find] returns the one containing folder,
    whatever its position in the selection. *)
Lemma find_containing_folder f folders d :
  Forall (fun x => isTopLevelDirectory x = true) folders ->
  In d folders -> startsWith f d = true ->
  find (fun folder => startsWith f folder) folders = Some d.
Proof.
  intros HT Hin Hd.
  destruct (find_when_some_matches f folders) as [d' E].
  { apply existsb_exists. now exists d. }
  rewrite E. f_equal.
  apply find_first_match in E as [Hin' Hd'].
  rewrite Forall_forall in HT.
  apply (containing_folder_unique f); auto.
Qed.

(** ** BAIN folders *)

Lemma basename_topLevelDirectory name :
  ~ In Path.sep name -> Path.basename (name ++ [Path.sep]) = name.
Proof.
  intro Hn. unfold Path.basename. rewrite rev_app_distr. simpl.
  assert (Hr : forall l : jsstring, ~ In Path.sep l ->
               takeWhile (fun c => negb (Path.isSep c)) l = l /\ dropWhile Path.isSep l = l).
  { induction l as [|x l IH]; intro Hl; [easy|]. simpl.
    rewrite (head_not_sep x l Hl). simpl. split; [|reflexivity].
    f_equal. apply IH. exact (tail_no_sep x l Hl). }
  change (Path.isSep Path.sep) with true. cbv iota.
  assert (Hrev : ~ In Path.sep (rev name)) by (now rewrite <- in_rev).
  destruct (Hr _ Hrev) as [Ht Hd]. rewrite Hd, Ht. apply rev_involutive.
Qed.

Lemma pattern_test_topLevelDirectory name :
  BAIN_FOLDER_PATTERN_test (name ++ [Path.sep]) = BAIN_FOLDER_PATTERN_test name.
Proof.
  destruct name as [|a [|b [|c rest]]]; try reflexivity.
  simpl. change (isWhiteSpace Path.sep) with false. apply andb_false_r.
Qed.

Lemma bain_filter_agrees entry :
  isTopLevelDirectory entry && BAIN_FOLDER_PATTERN_test entry = isBainFolder entry.
Proof.
  unfold isBainFolder. fold (isTopLevelDirectory entry).
  destruct (isTopLevelDirectory entry) eqn:T; [|reflexivity]. simpl.
  apply isTopLevelDirectory_shape in T as [name [-> Hn]].
  now rewrite basename_topLevelDirectory, pattern_test_topLevelDirectory.
Qed.

Lemma count_occ_filter (keep : jsstring -> bool) (L : list jsstring) (entry : jsstring) :
  count_occ (list_eq_dec N.eq_dec) (filter keep L) entry
  = if keep entry then count_occ (list_eq_dec N.eq_dec) L entry else 0%nat.
Proof.
  induction L as [|x L IH]; simpl.
  - now destruct (keep entry).
  - destruct (keep x) eqn:Kx; simpl;
      destruct (list_eq_dec N.eq_dec x entry) as [->|Hne];
      rewrite ?Kx in *; rewrite ?IH; reflexivity.
Qed.

(** C4: [getBainFolders] keeps, in their order and with their repetitions,
    exactly the entries that are directories, are top-level and whose
    basename matches the pattern of two digits and a white space. *)
Theorem getBainFolders_is_filter (L : list jsstring) :
  getBainFolders L = filter isBainFolder L /\
  (forall entry, In entry (getBainFolders L) <->
     In entry L /\ isDirectory entry = true /\ isTopLevel entry = true
     /\ BAIN_FOLDER_PATTERN_test (Path.basename entry) = true) /\
  (forall entry, count_occ (list_eq_dec N.eq_dec) (getBainFolders L) entry
     = if isBainFolder entry then count_occ (list_eq_dec N.eq_dec) L entry else 0%nat).
Proof.
  assert (E : getBainFolders L = filter isBainFolder L).
  { unfold getBainFolders. apply filter_ext. exact bain_filter_agrees. }
  split; [exact E|]. rewrite E. split.
  - intro entry. rewrite filter_In. unfold isBainFolder.
    rewrite !andb_true_iff. tauto.
  - intro entry. apply count_occ_filter.
Qed.

Lemma getBainFolders_topLevelDirectory files folders :
  incl folders (getBainFolders files) ->
  Forall (fun d => isTopLevelDirectory d = true) folders.
Proof.
  intro H. apply Forall_forall. intros d Hd.
  apply H in Hd. unfold getBainFolders in Hd.
  apply filter_In in Hd as [_ Hd]. now apply andb_true_iff in Hd as [Hd _].
Qed.

(** ** Detection *)

(** C1: [testSupportedContent] resolves for every listing and game
    identifier; [supported] is true exactly when the identifier is
    [morrowind] and the listing has a BAIN folder, and [requiredFiles] is
    empty.  As a function of [L] and [g] alone the result is determined by
    them. *)
Theorem testSupportedContent_resolves (L : list jsstring) (g : jsstring) :
  exists r,
    testSupportedContent L g = Resolved r /\
    requiredFiles r = [] /\
    supported r = strictEq g (js "morrowind") && negb (Nat.eqb (List.length (getBainFolders L)) 0) /\
    (supported r = true <-> g = js "morrowind" /\ getBainFolders L <> []).
Proof.
  unfold testSupportedContent. eexists. split; [reflexivity|]. simpl.
  split; [reflexivity|].
  assert (E : (0 <? Z.of_nat (List.length (getBainFolders L)))
              = negb (Nat.eqb (List.length (getBainFolders L)) 0)).
  { destruct (getBainFolders L); [reflexivity|]. simpl List.length.
    simpl Nat.eqb. simpl negb. apply Z.ltb_lt. lia. }
  rewrite E. split; [reflexivity|].
  rewrite andb_true_iff. change GAME_ID with (js "morrowind").
  rewrite strictEq_eq, negb_true_iff, Nat.eqb_neq.
  destruct (getBainFolders L); simpl; split; intros [H1 H2]; split; auto; congruence.
Qed.

(** The three detection scenarios of the specification. *)
Example detection_scenarios :
  let L := [js "00 Core/"; js "00 Core/plugin.esp";
            js "01 Optional/"; js "01 Optional/readme.txt"] in
  testSupportedContent L (js "morrowind")
    = Resolved {| supported := true; requiredFiles := [] |} /\
  testSupportedContent L (js "skyrim")
    = Resolved {| supported := false; requiredFiles := [] |} /\
  getBainFolders [js "readme.txt"; js "textures/"] = [] /\
  testSupportedContent [js "readme.txt"; js "textures/"] (js "morrowind")
    = Resolved {| supported := false; requiredFiles := [] |}.
Proof. repeat split. Qed.

(** ** The containing folder of a file *)

Lemma getRelativePath_containing cwd f folders d :
  Forall (fun x => isTopLevelDirectory x = true) folders ->
  In d folders -> startsWith f d = true ->
  getRelativePath cwd f folders = Return (Path.relative cwd d f).
Proof.
  intros HT Hin Hd. unfold getRelativePath.
  now rewrite (find_containing_folder f folders d HT Hin Hd).
Qed.

(** C9: of pairwise distinct top-level directories at most one begins a
    given path, so the first match that [getRelativePath] takes is the one
    containing folder, and the destination does not depend on the order of
    the selection. *)
Theorem containing_folder_at_most_one (cwd f : jsstring) :
  (forall folders,
      NoDup folders ->
      Forall (fun d => isTopLevelDirectory d = true) folders ->
      (List.length (filter (fun d => startsWith f d) folders) <= 1)%nat) /\
  (forall folders d,
      Forall (fun x => isTopLevelDirectory x = true) folders ->
      In d folders -> startsWith f d = true ->
      getRelativePath cwd f folders = Return (Path.relative cwd d f)) /\
  (forall folders folders',
      Forall (fun d => isTopLevelDirectory d = true) folders ->
      (forall d, In d folders <-> In d folders') ->
      getRelativePath cwd f folders = getRelativePath cwd f folders').
Proof.
  split; [|split].
  - intros folders Hnd HT.
    pose proof (NoDup_filter (fun d => startsWith f d) Hnd) as Hnd'.
    destruct (filter (fun d => startsWith f d) folders) as [|a [|b rest]] eqn:E;
      simpl; try lia.
    exfalso.
    assert (Ha : In a (filter (fun d => startsWith f d) folders)) by (rewrite E; now left).
    assert (Hb : In b (filter (fun d => startsWith f d) folders))
      by (rewrite E; right; now left).
    apply filter_In in Ha as [Ha1 Ha2]. apply filter_In in Hb as [Hb1 Hb2].
    rewrite Forall_forall in HT.
    assert (a = b) by (apply (containing_folder_unique f); auto).
    subst b. inversion Hnd' as [|? ? Hnot _]. apply Hnot. now left.
  - intros folders d. apply getRelativePath_containing.
  - intros folders folders' HT Hsame.
    assert (HT' : Forall (fun d => isTopLevelDirectory d = true) folders').
    { rewrite Forall_forall in *. intros d Hd. apply HT, Hsame, Hd. }
    destruct (isFileInSelectedFolder f folders) eqn:E.
    + apply existsb_exists in E as [d [Hin Hd]].
      rewrite (getRelativePath_containing cwd f folders d HT Hin Hd).
      symmetry. apply getRelativePath_containing; [exact HT' | now apply Hsame | exact Hd].
    + unfold getRelativePath.
      assert (N : forall l, (forall d, In d folders <-> In d l) ->
                  find (fun folder => startsWith f folder) l = None).
      { intros l Hl.
        destruct (find (fun folder => startsWith f folder) l) as [d|] eqn:F; [|reflexivity].
        apply find_first_match in F as [Hin Hd].
        assert (isFileInSelectedFolder f folders = true).
        { apply existsb_exists. exists d. split; [now apply Hl | exact Hd]. }
        congruence. }
      rewrite (N folders) by tauto. now rewrite (N folders' Hsame).
Qed.

(** With [00 Core/] and [01 Optional/] selected, in either order, the file
    [00 Core/plugin.esp] has the one containing folder [00 Core/]. *)
Lemma containing_folder_at_most_one_witness :
  let cwd := js "/home/user" in
  let f := js "00 Core/plugin.esp" in
  let folders := [js "00 Core/"; js "01 Optional/"] in
  (List.length (filter (fun d => startsWith f d) folders) <= 1)%nat /\
  getRelativePath cwd f folders = Return (js "plugin.esp") /\
  getRelativePath cwd f folders = getRelativePath cwd f (rev folders).
Proof.
  intros cwd f folders.
  assert (HT : Forall (fun d => isTopLevelDirectory d = true) folders)
    by (repeat constructor).
  assert (Hnd : NoDup folders).
  { repeat constructor; simpl; intros H;
      repeat (destruct H as [H|H]; try discriminate H); exact H. }
  destruct (containing_folder_at_most_one cwd f) as [H1 [H2 H3]].
  split; [exact (H1 folders Hnd HT)|]. split.
  - exact (H2 folders (js "00 Core/") HT (or_introl eq_refl) eq_refl).
  - apply (H3 folders (rev folders) HT). intro d. apply in_rev.
Defined.

(** ** Relative paths *)

Lemma split_nonempty p : Path.split p <> [].
Proof.
  destruct p as [|c p]; simpl; [discriminate|].
  destruct (Path.isSep c); [discriminate|].
  destruct (Path.split p); discriminate.
Qed.

Lemma split_app_sep a b :
  Path.split (a ++ Path.sep :: b) = Path.split a ++ Path.split b.
Proof.
  induction a as [|c a IH]; simpl.
  - reflexivity.
  - rewrite IH. destruct (Path.isSep c); [reflexivity|].
    destruct (Path.split a) as [|seg segs] eqn:E; [|reflexivity].
    now apply split_nonempty in E.
Qed.

Lemma split_single name : ~ In Path.sep name -> Path.split name = [name].
Proof.
  induction name as [|c name IH]; intro H; simpl; [reflexivity|].
  rewrite (head_not_sep c name H), IH; [reflexivity|].
  exact (tail_no_sep c name H).
Qed.

Lemma join_split p : join [Path.sep] (Path.split p) = p.
Proof.
  induction p as [|c p IH]; [reflexivity|]. simpl.
  destruct (Path.isSep c) eqn:Hc.
  - apply unit_eqb_eq in Hc. subst c.
    destruct (Path.split p) as [|seg segs] eqn:E; [now apply split_nonempty in E|].
    simpl in *. now rewrite IH.
  - destruct (Path.split p) as [|seg segs] eqn:E; [now apply split_nonempty in E|].
    rewrite <- IH. destruct segs; reflexivity.
Qed.

Lemma normalize_plain segs : forall stack,
  forallb isPlainSeg segs = true ->
  fold_left Path.normalizeStep segs stack = stack ++ segs.
Proof.
  induction segs as [|seg segs IH]; intros stack H; simpl in *.
  - now rewrite app_nil_r.
  - apply andb_true_iff in H as [Hseg Hsegs].
    rewrite (IH _ Hsegs). unfold Path.normalizeStep.
    unfold isPlainSeg in Hseg. apply negb_true_iff in Hseg.
    apply orb_false_iff in Hseg as [Hseg Hdd]. rewrite Hseg, Hdd.
    now rewrite <- app_assoc.
Qed.

Lemma segs_eqb_length a : forall b,
  Path.segs_eqb a b = true -> List.length a = List.length b.
Proof.
  induction a as [|x a IH]; intros [|y b] H; simpl in *; try discriminate; auto.
  apply andb_true_iff in H as [_ H]. f_equal. now apply IH.
Qed.

Lemma dropCommon_prefix a b : Path.dropCommon a (a ++ b) = ([], b).
Proof.
  induction a as [|x a IH]; simpl.
  - now destruct b.
  - now rewrite strictEq_refl.
Qed.

Lemma pattern_name_plain name :
  BAIN_FOLDER_PATTERN_test name = true -> isPlainSeg name = true.
Proof.
  destruct name as [|a [|b [|c rest]]]; try discriminate. intros _.
  unfold isPlainSeg, Path.isDotSeg, Path.isDotDotSeg. simpl.
  now rewrite !andb_false_r.
Qed.

(** Resolving [name/] followed by a plain path appends the portions to the
    normalised working directory. *)
Lemma resolve_under_cwd cwd name rest :
  ~ In Path.sep name -> isPlainSeg name = true ->
  forallb isPlainSeg rest = true ->
  Path.normalizeSegments (Path.split cwd ++ [name] ++ rest)
  = Path.normalizeSegments (Path.split cwd) ++ [name] ++ rest.
Proof.
  intros Hn Hp Hr. unfold Path.normalizeSegments.
  rewrite fold_left_app. apply normalize_plain.
  simpl. now rewrite Hp.
Qed.

Lemma relative_strips_folder cwd name rest :
  ~ In Path.sep name -> isPlainSeg name = true -> isPlainPath rest = true ->
  Path.relative cwd (name ++ [Path.sep]) ((name ++ [Path.sep]) ++ rest) = rest.
Proof.
  intros Hn Hp Hr. unfold Path.relative.
  assert (Hrest : rest <> []) by (intros ->; discriminate Hr).
  destruct (strictEq (name ++ [Path.sep]) ((name ++ [Path.sep]) ++ rest)) eqn:E.
  { apply strictEq_eq in E. rewrite <- (app_nil_r (name ++ [Path.sep])) in E at 1.
    apply app_inv_head in E. congruence. }
  assert (Hfrom : Path.resolve cwd (name ++ [Path.sep])
                  = Path.normalizeSegments (Path.split cwd) ++ [name]).
  { destruct name as [|c name']; [discriminate Hp|].
    unfold Path.resolve. simpl app. cbv beta iota.
    rewrite (head_not_sep c name' Hn).
    change (c :: name' ++ [Path.sep]) with ((c :: name') ++ Path.sep :: []).
    rewrite !split_app_sep, (split_single _ Hn). simpl Path.split.
    unfold Path.normalizeSegments. rewrite !fold_left_app. simpl fold_left.
    unfold Path.normalizeStep at 1. simpl Path.isEmptySeg. simpl orb. cbv iota.
    unfold Path.normalizeStep at 1.
    unfold isPlainSeg in Hp. apply negb_true_iff in Hp.
    apply orb_false_iff in Hp as [Hp1 Hp2]. now rewrite Hp1, Hp2. }
  assert (Hto : Path.resolve cwd ((name ++ [Path.sep]) ++ rest)
                = (Path.normalizeSegments (Path.split cwd) ++ [name]) ++ Path.split rest).
  { destruct name as [|c name']; [discriminate Hp|].
    unfold Path.resolve. simpl app. cbv beta iota.
    rewrite (head_not_sep c name' Hn), <- app_assoc. simpl app.
    change (c :: name' ++ Path.sep :: rest) with ((c :: name') ++ Path.sep :: rest).
    rewrite !split_app_sep, (split_single _ Hn).
    rewrite <- app_assoc. now apply resolve_under_cwd. }
  rewrite Hfrom, Hto.
  destruct (Path.segs_eqb _ _) eqn:Es.
  { apply segs_eqb_length in Es. rewrite !length_app in Es.
    pose proof (split_nonempty rest) as Hs.
    destruct (Path.split rest); [congruence | simpl in Es; lia]. }
  rewrite dropCommon_prefix. simpl. apply join_split.
Qed.

(** C6, as amended: below a selected BAIN folder [d], a file whose path
    beneath [d] is made of plain portions is sent to exactly that path:
    the leading [d] is removed once and nothing else changes.  The
    destination therefore begins with the folder's own name only when the
    path beneath the folder does. *)
Theorem destination_strips_folder_once
  (cwd : jsstring) (folders : list jsstring) (d rest : jsstring) :
  Forall (fun x => isTopLevelDirectory x = true) folders ->
  In d folders ->
  isBainFolder d = true ->
  isPlainPath rest = true ->
  getRelativePath cwd (d ++ rest) folders = Return rest.
Proof.
  intros HT Hin Hd Hr.
  rewrite (getRelativePath_containing cwd (d ++ rest) folders d HT Hin (startsWith_app d rest)).
  f_equal.
  rewrite <- bain_filter_agrees in Hd. apply andb_true_iff in Hd as [Ht Hpat].
  apply isTopLevelDirectory_shape in Ht as [name [-> Hn]].
  rewrite pattern_test_topLevelDirectory in Hpat.
  apply relative_strips_folder; auto using pattern_name_plain.
Qed.

(** The file [00 Core/meshes/a.nif] goes to [meshes/a.nif]. *)
Lemma destination_strips_folder_once_witness :
  getRelativePath (js "/home/user") (js "00 Core/" ++ js "meshes/a.nif")
                  [js "00 Core/"; js "01 Optional/"]
  = Return (js "meshes/a.nif").
Proof.
  apply (destination_strips_folder_once (js "/home/user")
           [js "00 Core/"; js "01 Optional/"] (js "00 Core/") (js "meshes/a.nif")).
  - repeat constructor.
  - left. reflexivity.
  - reflexivity.
  - reflexivity.
Defined.

(** C6, as worded: the file [00 Core/00 Core/x.esp] lies under the selected
    BAIN folder [00 Core/], and its destination [00 Core/x.esp] begins with
    that folder's basename. *)
Lemma destination_may_start_with_folder_name :
  let d := js "00 Core/" in
  let f := js "00 Core/00 Core/x.esp" in
  In d (getBainFolders [d; f]) /\
  isFile f = true /\
  startsWith f d = true /\
  getRelativePath (js "/home/user") f [d] = Return (js "00 Core/x.esp") /\
  firstSegment (js "00 Core/x.esp") = Path.basename d.
Proof.
  repeat split. left. reflexivity.
Qed.

(** ** The dialog step *)

Lemma mapi_from_nth {A B : Type} (f : A -> nat -> B) (xs : list A) :
  forall start i,
    nth_error (mapi_from start f xs) i
    = option_map (fun x => f x (start + i)%nat) (nth_error xs i).
Proof.
  induction xs as [|x xs IH]; intros start [|i]; simpl; try reflexivity.
  - now rewrite Nat.add_0_r.
  - rewrite IH. now rewrite Nat.add_succ_r.
Qed.

Lemma mapi_from_length {A B : Type} (f : A -> nat -> B) (xs : list A) :
  forall start, List.length (mapi_from start f xs) = List.length xs.
Proof. induction xs as [|x xs IH]; intro start; simpl; [reflexivity | now rewrite IH]. Qed.

Lemma no_value_true (entries : list (jsstring * bool)) :
  existsb (fun value => value) (List.map snd entries) = false <->
  forall entry, In entry entries -> snd entry = false.
Proof.
  induction entries as [|[k v] entries IH]; simpl.
  - split; [intros _ entry [] | reflexivity].
  - rewrite orb_false_iff, IH. split.
    + intros [Hv H] entry [<- | Hin]; [exact Hv | now apply H].
    + intro H. split; [apply (H (k, v)); now left | intros entry Hin; apply H; now right].
Qed.

Lemma some_value_true_selected (entries : list (jsstring * bool)) :
  existsb (fun value => value) (List.map snd entries) = true ->
  List.map fst (filter (fun entry => snd entry) entries) <> [].
Proof.
  induction entries as [|[k v] entries IH]; simpl; [discriminate|].
  destruct v; simpl; [discriminate | exact IH].
Qed.

(** The dialog step on an answer of the host: cancellation, or a selection
    that is not empty. *)
Lemma selectionOf_cases (result : DialogResult) :
  (selectionOf result = Throw (UserCanceled (js "No folders selected or action canceled."))
   /\ (action result = js "Cancel"
       \/ forall entry, In entry (input result) -> snd entry = false))
  \/
  (selectionOf result = Return (List.map fst (filter (fun entry => snd entry) (input result)))
   /\ action result <> js "Cancel"
   /\ (exists key, In (key, true) (input result))
   /\ List.map fst (filter (fun entry => snd entry) (input result)) <> []).
Proof.
  unfold selectionOf.
  destruct (strictEq (action result) (js "Cancel")) eqn:Ea; simpl.
  - left. split; [reflexivity|]. left. now apply strictEq_eq.
  - destruct (existsb (fun value => value) (List.map snd (input result))) eqn:Ev; simpl.
    + right. split; [reflexivity|]. split.
      * intro H. apply strictEq_eq in H. congruence.
      * split; [|now apply some_value_true_selected].
        apply existsb_exists in Ev as [v [Hin Hv]].
        apply in_map_iff in Hin as [[k v'] [Hk Hin]]. simpl in Hk. subst.
        now exists k.
    + left. split; [reflexivity|]. right. now apply no_value_true.
Qed.

Lemma showFolderSelectionDialog_answer bainFolders context :
  showFolderSelectionDialog bainFolders context
  = (result <- showDialog (api context) (js "question") (js "Choose BAIN Options")
                 (dialogContent bainFolders) dialogActions ;;
     selectionOf result).
Proof. reflexivity. Qed.

(** C8: the dialog is asked with one checkbox per BAIN folder, in order,
    identified by the folder's path and labelled with its basename, the
    first one ticked and no other; the actions are [Cancel] and [Continue],
    [Continue] being the default; and when the user neither cancels nor
    leaves every box empty, the selection is the identifiers whose value is
    true, in the order of the host's answer. *)
Theorem folder_selection_dialog (bainFolders : list jsstring) (context : Context) :
  showFolderSelectionDialog bainFolders context
  = (result <- showDialog (api context) (js "question") (js "Choose BAIN Options")
                 (dialogContent bainFolders) dialogActions ;;
     selectionOf result) /\
  List.length (checkboxes (dialogContent bainFolders)) = List.length bainFolders /\
  (forall i folder,
      nth_error bainFolders i = Some folder ->
      nth_error (checkboxes (dialogContent bainFolders)) i
      = Some {| cb_id := folder;
                cb_text := Path.basename folder;
                cb_value := Nat.eqb i 0 |}) /\
  (forall files folder,
      In folder (getBainFolders files) ->
      folder = Path.basename folder ++ [Path.sep]) /\
  dialogActions = [ {| label := js "Cancel"; act_default := None |};
                    {| label := js "Continue"; act_default := Some true |} ] /\
  (forall result,
      showDialog (api context) (js "question") (js "Choose BAIN Options")
        (dialogContent bainFolders) dialogActions = Return result ->
      action result <> js "Cancel" ->
      (exists key, In (key, true) (input result)) ->
      showFolderSelectionDialog bainFolders context
      = Return (List.map fst (filter (fun entry => snd entry) (input result)))).
Proof.
  split; [reflexivity|]. split; [apply mapi_from_length|]. split.
  { intros i folder H. simpl. unfold dialogCheckboxes, mapi.
    now rewrite mapi_from_nth, H. }
  split.
  { intros files folder H. unfold getBainFolders in H.
    apply filter_In in H as [_ H]. apply andb_true_iff in H as [H _].
    apply isTopLevelDirectory_shape in H as [name [-> Hn]].
    now rewrite basename_topLevelDirectory. }
  split; [reflexivity|].
  intros result Hres Hact [key Hkey].
  rewrite showFolderSelectionDialog_answer, Hres. simpl.
  destruct (selectionOf_cases result) as [[_ [H | H]] | [H _]].
  - contradiction.
  - specialize (H _ Hkey). discriminate H.
  - exact H.
Qed.

(** The user keeps [00 Core/] and also ticks [02 Extra/]. *)
Lemma folder_selection_dialog_witness :
  let folders := [js "00 Core/"; js "01 Optional/"; js "02 Extra/"] in
  let answer := {| action := js "Continue";
                   input := [(js "00 Core/", true); (js "01 Optional/", false);
                             (js "02 Extra/", true)] |} in
  let context := {| api := {| showDialog := fun _ _ _ _ => Return answer |} |} in
  nth_error (checkboxes (dialogContent folders)) 1
  = Some {| cb_id := js "01 Optional/"; cb_text := js "01 Optional"; cb_value := false |} /\
  js "00 Core/" = Path.basename (js "00 Core/") ++ [Path.sep] /\
  showFolderSelectionDialog folders context = Return [js "00 Core/"; js "02 Extra/"].
Proof.
  intros folders answer context.
  destruct (folder_selection_dialog folders context) as [_ [_ [Hbox [Hname [_ Hsel]]]]].
  split; [exact (Hbox 1%nat (js "01 Optional/") eq_refl)|].
  split; [exact (Hname folders (js "00 Core/") (or_introl eq_refl))|].
  apply (Hsel answer eq_refl).
  - discriminate.
  - exists (js "00 Core/"). left. reflexivity.
Defined.

(** ** Installation *)

Lemma mapM_total {A B : Type} (f : A -> completion B) (g : A -> B) (xs : list A) :
  (forall x, In x xs -> f x = Return (g x)) ->
  mapM f xs = Return (List.map g xs).
Proof.
  induction xs as [|x xs IH]; intro H; simpl; [reflexivity|].
  rewrite (H x) by now left. simpl.
  rewrite IH by (intros y Hy; apply H; now right). reflexivity.
Qed.

Section InstallerFacts.

Variable cwd : jsstring.
Variable userCanceledMessage : jsstring -> jsstring.


Lemma installContent_after_unreadable files context e raised :
  showFolderSelectionDialog (getBainFolders files) context = Throw e ->
  errorMessage userCanceledMessage e = Throw raised ->
  installContent cwd userCanceledMessage files context
  = ([(Debug, Text (js "BAIN folders: " ++ join (js ", ") (getBainFolders files)))],
     Rejected raised).
Proof. intros H Hm. unfold installContent. now rewrite H, Hm. Qed.


Lemma installContent_after_selection files context selectedFolders :
  showFolderSelectionDialog (getBainFolders files) context = Return selectedFolders ->
  snd (installContent cwd userCanceledMessage files context)
  = Resolved (InstructionsObject
                (List.map (instructionFor cwd selectedFolders) (keptFiles files selectedFolders))).
Proof.
  intro H. unfold installContent. rewrite H. cbv beta iota zeta.
  fold (keptFiles files selectedFolders).
  rewrite (mapM_total _ (instructionFor cwd selectedFolders)); [reflexivity|].
  intros file Hin. apply filter_In in Hin as [_ Hin].
  apply andb_true_iff in Hin as [_ Hin].
  destruct (find_when_some_matches file selectedFolders Hin) as [d Hd].
  unfold getRelativePath, instructionFor. now rewrite Hd.
Qed.


Lemma abort_outcome_independent
  (cwd' : jsstring) (userCanceledMessage' : jsstring -> jsstring) files context e :
  showFolderSelectionDialog (getBainFolders files) context = Throw e ->
  snd (installContent cwd userCanceledMessage files context)
  = snd (installContent cwd' userCanceledMessage' files context).
Proof. intro H. unfold installContent. rewrite H. now destruct e. Qed.

Lemma instructions_of_selection files selectedFolders :
  incl selectedFolders (getBainFolders files) ->
  let instructions :=
    List.map (instructionFor cwd selectedFolders) (keptFiles files selectedFolders) in
  List.map source instructions = keptFiles files selectedFolders /\
  Forall (fun i => instr_type i = js "copy") instructions /\
  Forall (fun i => forall d, In d selectedFolders -> startsWith (source i) d = true ->
                             destination i = Path.relative cwd d (source i))
         instructions.
Proof.
  intros Hsel instructions. subst instructions. split; [|split].
  - rewrite map_map. simpl. apply map_id.
  - apply Forall_forall. intros i Hi. apply in_map_iff in Hi as [file [<- _]]. reflexivity.
  - apply Forall_forall. intros i Hi. apply in_map_iff in Hi as [file [<- _]].
    intros d Hd Hstart. simpl.
    rewrite (find_containing_folder file selectedFolders d); auto.
    now apply (getBainFolders_topLevelDirectory files).
Qed.

End InstallerFacts.

Lemma selection_nonempty bainFolders context selectedFolders :
  showFolderSelectionDialog bainFolders context = Return selectedFolders ->
  selectedFolders <> [].
Proof.
  rewrite showFolderSelectionDialog_answer.
  destruct (showDialog _ _ _ _ _) as [result|e]; simpl; [|discriminate].
  destruct (selectionOf_cases result) as [[E _] | [E [_ [_ Hne]]]]; rewrite E.
  - discriminate.
  - intros [= <-]. exact Hne.
Qed.

(** C2: after a selection [S] of BAIN folders, [installContent] resolves
    with one copy instruction per entry of the listing that is a file and
    begins with a selected folder, in the listing's order; the source is the
    entry and the destination is the entry relative to the selected folder
    containing it.  With [00 Core/] alone selected in the listing of the
    first scenario the instructions are the single copy of
    [00 Core/plugin.esp] to [plugin.esp]. *)
Theorem installContent_instructions :
  (forall cwd userCanceledMessage files context S,
      showFolderSelectionDialog (getBainFolders files) context = Return S ->
      incl S (getBainFolders files) ->
      exists instructions,
        snd (installContent cwd userCanceledMessage files context)
        = Resolved (InstructionsObject instructions) /\
        S <> [] /\
        List.map source instructions
        = filter (fun file => isFile file && existsb (fun d => startsWith file d) S) files /\
        Forall (fun i => instr_type i = js "copy") instructions /\
        Forall (fun i => forall d, In d S -> startsWith (source i) d = true ->
                                   destination i = Path.relative cwd d (source i))
               instructions) /\
  (forall cwd userCanceledMessage context,
      let L := [js "00 Core/"; js "00 Core/plugin.esp";
                js "01 Optional/"; js "01 Optional/readme.txt"] in
      showFolderSelectionDialog (getBainFolders L) context = Return [js "00 Core/"] ->
      snd (installContent cwd userCanceledMessage L context)
      = Resolved (InstructionsObject
                    [ {| instr_type := js "copy";
                         source := js "00 Core/plugin.esp";
                         destination := js "plugin.esp" |} ])).
Proof.
  split.
  - intros cwd ucm files context S Hdlg Hincl.
    exists (List.map (instructionFor cwd S) (keptFiles files S)).
    split; [now apply installContent_after_selection|].
    split; [exact (selection_nonempty _ _ _ Hdlg)|].
    exact (instructions_of_selection cwd files S Hincl).
  - intros cwd ucm context L Hdlg.
    rewrite (installContent_after_selection cwd ucm L context _ Hdlg).
    change (keptFiles L [js "00 Core/"]) with [js "00 Core/plugin.esp"].
    do 2 f_equal. simpl List.map. f_equal. unfold instructionFor. f_equal.
    change (find _ [js "00 Core/"]) with (Some (js "00 Core/")). cbv iota.
    change (js "00 Core/plugin.esp") with ((js "00 Core" ++ [Path.sep]) ++ js "plugin.esp").
    change (js "00 Core/") with (js "00 Core" ++ [Path.sep]).
    apply relative_strips_folder; try reflexivity.
    apply sepCount_zero_In. reflexivity.
Qed.

(** The fourth scenario, run against a host whose user keeps the default
    tick on [00 Core/]. *)
Lemma installContent_instructions_witness :
  let L := [js "00 Core/"; js "00 Core/plugin.esp";
            js "01 Optional/"; js "01 Optional/readme.txt"] in
  let answer := {| action := js "Continue";
                   input := [(js "00 Core/", true); (js "01 Optional/", false)] |} in
  let context := {| api := {| showDialog := fun _ _ _ _ => Return answer |} |} in
  (exists instructions,
      snd (installContent (js "/home/user") (fun arg => arg) L context)
      = Resolved (InstructionsObject instructions) /\
      List.map source instructions = [js "00 Core/plugin.esp"]) /\
  snd (installContent (js "/home/user") (fun arg => arg) L context)
  = Resolved (InstructionsObject
                [ {| instr_type := js "copy";
                     source := js "00 Core/plugin.esp";
                     destination := js "plugin.esp" |} ]).
Proof.
  intros L answer context.
  destruct installContent_instructions as [Hgen Hscenario].
  split.
  - destruct (Hgen (js "/home/user") (fun arg => arg) L context [js "00 Core/"] eq_refl)
      as [instructions [Hres [_ [Hsrc _]]]].
    + intros d [<- | []]. left. reflexivity.
    + exists instructions. split; [exact Hres | exact Hsrc].
  - exact (Hscenario (js "/home/user") (fun arg => arg) context eq_refl).
Defined.







(** * Further properties of the helpers and of the installer *)

(** ** Detection over listings *)

Lemma filter_idem {A : Type} (keep : A -> bool) (l : list A) :
  filter keep (filter keep l) = filter keep l.
Proof.
  induction l as [|x l IH]; [reflexivity|]. simpl.
  destruct (keep x) eqn:K; simpl; [rewrite K; f_equal|]; exact IH.
Qed.

Lemma has_bain_folder_existsb (L : list jsstring) :
  (0 <? Z.of_nat (List.length (getBainFolders L)))
  = existsb (fun file => isTopLevelDirectory file && BAIN_FOLDER_PATTERN_test file) L.
Proof.
  unfold getBainFolders. induction L as [|x L IH]; [reflexivity|]. simpl.
  destruct (isTopLevelDirectory x && BAIN_FOLDER_PATTERN_test x); simpl; [|exact IH].
  apply Z.ltb_lt. lia.
Qed.

Lemma existsb_permutation {A : Type} (p : A -> bool) (l l' : list A) :
  Permutation l l' -> existsb p l = existsb p l'.
Proof.
  intro H. induction H; simpl.
  - reflexivity.
  - now rewrite IHPermutation.
  - now rewrite !orb_assoc, (orb_comm (p y)).
  - congruence.
Qed.

(** X1: [getBainFolders] distributes over the concatenation of listings and
    finds nothing new in its own result; the detector answers for a listing
    as it does for the BAIN folders of that listing alone. *)
Theorem getBainFolders_composes (L1 L2 : list jsstring) (g : jsstring) :
  getBainFolders (L1 ++ L2) = getBainFolders L1 ++ getBainFolders L2 /\
  getBainFolders (getBainFolders L1) = getBainFolders L1 /\
  testSupportedContent (getBainFolders L1) g = testSupportedContent L1 g.
Proof.
  assert (Hidem : getBainFolders (getBainFolders L1) = getBainFolders L1)
    by (unfold getBainFolders; apply filter_idem).
  split; [unfold getBainFolders; apply filter_app|]. split; [exact Hidem|].
  unfold testSupportedContent. now rewrite Hidem.
Qed.

(** X2: detection does not depend on the order of the listing, and a
    listing that is supported stays supported when entries are added before
    or after it. *)
Theorem detection_order_and_growth (L L' : list jsstring) (g : jsstring) :
  (Permutation L L' -> testSupportedContent L g = testSupportedContent L' g) /\
  (testSupportedContent L g = Resolved {| supported := true; requiredFiles := [] |} ->
   testSupportedContent (L ++ L') g = Resolved {| supported := true; requiredFiles := [] |} /\
   testSupportedContent (L' ++ L) g = Resolved {| supported := true; requiredFiles := [] |}).
Proof.
  unfold testSupportedContent. rewrite !has_bain_folder_existsb. split.
  - intro H. now rewrite (existsb_permutation _ L L' H).
  - intro H. injection H as H. apply andb_true_iff in H as [Hg HL].
    rewrite !existsb_app, Hg, HL, orb_true_r. now split.
Qed.

(** The listing of the first scenario, reordered and extended. *)
Lemma detection_order_and_growth_witness :
  let L := [js "00 Core/"; js "00 Core/plugin.esp"] in
  let L' := [js "00 Core/plugin.esp"; js "00 Core/"] in
  testSupportedContent L (js "morrowind") = testSupportedContent L' (js "morrowind") /\
  testSupportedContent (L ++ L') (js "morrowind")
  = Resolved {| supported := true; requiredFiles := [] |}.
Proof.
  intros L L'.
  destruct (detection_order_and_growth L L' (js "morrowind")) as [Hperm Hgrow].
  split.
  - apply Hperm. apply perm_swap.
  - exact (proj1 (Hgrow eq_refl)).
Defined.

(** ** Top-level directories and their names *)

Lemma takeWhile_all {A : Type} (p : A -> bool) (l : list A) :
  Forall (fun x => p x = true) (takeWhile p l).
Proof.
  induction l as [|x l IH]; simpl; [constructor|].
  destruct (p x) eqn:E; constructor; assumption.
Qed.

Lemma basename_no_sep p : ~ In Path.sep (Path.basename p).
Proof.
  unfold Path.basename. rewrite <- in_rev. intro H.
  pose proof (takeWhile_all (fun c => negb (Path.isSep c))
                (dropWhile Path.isSep (rev p))) as Hall.
  rewrite Forall_forall in Hall. specialize (Hall _ H). discriminate Hall.
Qed.

(** X3: a path is a top-level directory exactly when it is its own basename
    followed by one separator. *)
Theorem topLevelDirectory_is_named (d : jsstring) :
  isTopLevelDirectory d = true <-> d = Path.basename d ++ [Path.sep].
Proof.
  split.
  - intro H. apply isTopLevelDirectory_shape in H as [name [-> Hn]].
    now rewrite basename_topLevelDirectory.
  - intro H. apply isTopLevelDirectory_shape.
    exists (Path.basename d). split; [exact H | apply basename_no_sep].
Qed.

Lemma join_cons glue x rest :
  rest <> [] -> join glue (x :: rest) = x ++ glue ++ join glue rest.
Proof. destruct rest; [contradiction | reflexivity]. Qed.

Lemma startsWith_topLevelDirectory f name :
  ~ In Path.sep name ->
  (startsWith f (name ++ [Path.sep]) = true <->
   exists rest, Path.split f = name :: rest /\ rest <> []).
Proof.
  intro Hn. rewrite startsWith_prefix. split.
  - intros [r ->]. rewrite <- app_assoc. simpl.
    rewrite split_app_sep, (split_single _ Hn). simpl.
    exists (Path.split r). split; [reflexivity | apply split_nonempty].
  - intros [rest [Hs Hne]]. exists (join [Path.sep] rest).
    rewrite <- (join_split f), Hs, (join_cons _ _ _ Hne).
    now rewrite <- app_assoc.
Qed.

(** X4: against top-level directories the prefix test of
    [isFileInSelectedFolder] is exact on path portions: a file is in a
    selected folder exactly when its first portion is that folder's name
    and more portions follow. *)
Theorem selected_folder_is_first_portion (f : jsstring) (selectedFolders : list jsstring) :
  Forall (fun d => isTopLevelDirectory d = true) selectedFolders ->
  (isFileInSelectedFolder f selectedFolders = true <->
   exists d rest,
     In d selectedFolders /\ Path.split f = Path.basename d :: rest /\ rest <> []).
Proof.
  intro HT. rewrite Forall_forall in HT.
  unfold isFileInSelectedFolder. rewrite existsb_exists. split.
  - intros [d [Hin Hd]]. specialize (HT d Hin).
    apply isTopLevelDirectory_shape in HT as [name [-> Hn]].
    apply (startsWith_topLevelDirectory f name Hn) in Hd as [rest [Hs Hne]].
    exists (name ++ [Path.sep]), rest.
    now rewrite basename_topLevelDirectory.
  - intros [d [rest [Hin [Hs Hne]]]]. exists d. split; [exact Hin|].
    specialize (HT d Hin).
    apply isTopLevelDirectory_shape in HT as [name [-> Hn]].
    rewrite basename_topLevelDirectory in Hs by exact Hn.
    apply (startsWith_topLevelDirectory f name Hn). now exists rest.
Qed.

(** [00 Core/] holds [00 Core/plugin.esp]. *)
Lemma selected_folder_is_first_portion_witness :
  isFileInSelectedFolder (js "00 Core/plugin.esp") [js "00 Core/"] = true.
Proof.
  apply (selected_folder_is_first_portion (js "00 Core/plugin.esp") [js "00 Core/"]).
  - repeat constructor.
  - exists (js "00 Core/"), [js "plugin.esp"].
    split; [left; reflexivity|]. split; [reflexivity | discriminate].
Defined.

(** ** The guard of [getRelativePath] *)

(** X5: [getRelativePath] throws exactly on the files that
    [isFileInSelectedFolder] rejects, the empty selection included;
    on the others it returns the path relative to one of the selected
    folders that begin the file. *)
Theorem getRelativePath_guard (cwd f : jsstring) (selectedFolders : list jsstring) :
  ((exists e, getRelativePath cwd f selectedFolders = Throw e) <->
   isFileInSelectedFolder f selectedFolders = false) /\
  (isFileInSelectedFolder f selectedFolders = true ->
   exists d, In d selectedFolders /\ startsWith f d = true /\
             getRelativePath cwd f selectedFolders = Return (Path.relative cwd d f)) /\
  (exists e, getRelativePath cwd f [] = Throw e).
Proof.
  split; [|split].
  - unfold getRelativePath.
    destruct (isFileInSelectedFolder f selectedFolders) eqn:E.
    + destruct (find_when_some_matches f selectedFolders E) as [d Hd]. rewrite Hd.
      split; [intros [e He]; discriminate He | discriminate].
    + destruct (find _ selectedFolders) as [d|] eqn:F.
      * apply find_first_match in F as [Hin Hd].
        assert (isFileInSelectedFolder f selectedFolders = true)
          by (apply existsb_exists; now exists d).
        congruence.
      * split; [reflexivity | eauto].
  - intro E. destruct (find_when_some_matches f selectedFolders E) as [d Hd].
    exists d. destruct (find_first_match f selectedFolders d Hd) as [Hin Hs].
    unfold getRelativePath. now rewrite Hd.
  - unfold getRelativePath. simpl. eauto.
Qed.

(** With [00 Core/] selected, [00 Core/plugin.esp] goes to [plugin.esp]. *)
Lemma getRelativePath_guard_witness :
  exists d, In d [js "00 Core/"] /\ startsWith (js "00 Core/plugin.esp") d = true /\
            getRelativePath (js "/home/user") (js "00 Core/plugin.esp") [js "00 Core/"]
            = Return (Path.relative (js "/home/user") d (js "00 Core/plugin.esp")).
Proof.
  exact (proj1 (proj2 (getRelativePath_guard (js "/home/user")
                         (js "00 Core/plugin.esp") [js "00 Core/"])) eq_refl).
Defined.

(** ** The selection and the folders offered *)

Lemma mapi_from_ids (bainFolders : list jsstring) : forall start,
  List.map cb_id
    (mapi_from start
       (fun folder index =>
          {| cb_id := folder;
             cb_text := Path.basename folder;
             cb_value := Nat.eqb index 0 |}) bainFolders)
  = bainFolders.
Proof.
  induction bainFolders as [|x l IH]; intro start; simpl; [reflexivity|].
  now rewrite IH.
Qed.

Lemma checkbox_ids bainFolders :
  List.map cb_id (checkboxes (dialogContent bainFolders)) = bainFolders.
Proof. apply mapi_from_ids. Qed.

Lemma selected_entries (entries : list (jsstring * bool)) (d : jsstring) :
  In d (List.map fst (filter (fun entry => snd entry) entries)) <-> In (d, true) entries.
Proof.
  rewrite in_map_iff. split.
  - intros [[k v] [Hk Hin]]. apply filter_In in Hin as [Hin Hv].
    simpl in *. now subst.
  - intro Hin. exists (d, true). split; [reflexivity|].
    apply filter_In. now split.
Qed.

Lemma selection_from_answer bainFolders context selectedFolders :
  showFolderSelectionDialog bainFolders context = Return selectedFolders ->
  exists result,
    showDialog (api context) (js "question") (js "Choose BAIN Options")
      (dialogContent bainFolders) dialogActions = Return result /\
    selectedFolders = List.map fst (filter (fun entry => snd entry) (input result)).
Proof.
  rewrite showFolderSelectionDialog_answer.
  destruct (showDialog _ _ _ _ _) as [result|e]; simpl; [|discriminate].
  intro H. exists result. split; [reflexivity|].
  destruct (selectionOf_cases result) as [[E _] | [E _]]; rewrite E in H;
    [discriminate | now injection H].
Qed.

Lemma selection_within_folders bainFolders context selectedFolders :
  honoursDialog context bainFolders ->
  showFolderSelectionDialog bainFolders context = Return selectedFolders ->
  incl selectedFolders bainFolders.
Proof.
  intros Hhost Hsel d Hd.
  destruct (selection_from_answer _ _ _ Hsel) as [result [Hres ->]].
  apply selected_entries in Hd.
  specialize (Hhost result Hres (d, true) Hd).
  now rewrite checkbox_ids in Hhost.
Qed.

(** X6: the identifiers of the checkboxes are the BAIN folders themselves,
    in order; so when the host answers for the checkboxes it was given,
    every folder of the selection is one of the folders offered, and was
    answered with the value true. *)
Theorem selection_is_among_offered
  (bainFolders : list jsstring) (context : Context) (selectedFolders : list jsstring) :
  List.map cb_id (checkboxes (dialogContent bainFolders)) = bainFolders /\
  (honoursDialog context bainFolders ->
   showFolderSelectionDialog bainFolders context = Return selectedFolders ->
   incl selectedFolders bainFolders /\
   exists result,
     showDialog (api context) (js "question") (js "Choose BAIN Options")
       (dialogContent bainFolders) dialogActions = Return result /\
     forall d, In d selectedFolders <-> In (d, true) (input result)).
Proof.
  split; [apply checkbox_ids|]. intros Hhost Hsel.
  split; [exact (selection_within_folders _ _ _ Hhost Hsel)|].
  destruct (selection_from_answer _ _ _ Hsel) as [result [Hres ->]].
  exists result. split; [exact Hres|]. intro d. apply selected_entries.
Qed.

(** A user who unticks [00 Core/] and ticks [01 Optional/]. *)
Lemma selection_is_among_offered_witness :
  let folders := [js "00 Core/"; js "01 Optional/"] in
  let answer := {| action := js "Continue";
                   input := [(js "00 Core/", false); (js "01 Optional/", true)] |} in
  let context := {| api := {| showDialog := fun _ _ _ _ => Return answer |} |} in
  incl [js "01 Optional/"] folders.
Proof.
  intros folders answer context.
  refine (proj1 (proj2 (selection_is_among_offered folders context [js "01 Optional/"])
                   _ eq_refl)).
  intros result [= <-] entry Hin. simpl in Hin.
  destruct Hin as [<- | [<- | []]]; [left | right; left]; reflexivity.
Defined.

(** ** What is installed *)

Lemma instructions_after_selection cwd ucm files context selectedFolders :
  showFolderSelectionDialog (getBainFolders files) context = Return selectedFolders ->
  instructionsOf (snd (installContent cwd ucm files context))
  = List.map (instructionFor cwd selectedFolders) (keptFiles files selectedFolders).
Proof.
  intro H. now rewrite (installContent_after_selection cwd ucm files context _ H).
Qed.

Lemma instructions_after_abort cwd ucm files context e :
  showFolderSelectionDialog (getBainFolders files) context = Throw e ->
  instructionsOf (snd (installContent cwd ucm files context)) = [].
Proof.
  intro H. unfold installContent. rewrite H. now destruct e.
Qed.

(** X7: when the host answers for the checkboxes it was given, every
    instruction copies an entry of the listing that is a file and lies
    under a BAIN folder of the listing; an entry that begins with no BAIN
    folder of the listing is never copied. *)
Theorem only_files_under_bain_folders
  (cwd : jsstring) (userCanceledMessage : jsstring -> jsstring)
  (files : list jsstring) (context : Context) :
  honoursDialog context (getBainFolders files) ->
  (forall i,
      In i (instructionsOf (snd (installContent cwd userCanceledMessage files context))) ->
      In (source i) files /\ isFile (source i) = true /\
      exists d, In d (getBainFolders files) /\ startsWith (source i) d = true) /\
  (forall f,
      isFileInSelectedFolder f (getBainFolders files) = false ->
      ~ In f (List.map source
                (instructionsOf (snd (installContent cwd userCanceledMessage files context))))).
Proof.
  intro Hhost.
  assert (Hmain : forall i,
      In i (instructionsOf (snd (installContent cwd userCanceledMessage files context))) ->
      In (source i) files /\ isFile (source i) = true /\
      exists d, In d (getBainFolders files) /\ startsWith (source i) d = true).
  { intros i Hi.
    destruct (showFolderSelectionDialog (getBainFolders files) context) as [S|e] eqn:E.
    - rewrite (instructions_after_selection _ _ _ _ _ E) in Hi.
      apply in_map_iff in Hi as [f [<- Hf]]. simpl.
      apply filter_In in Hf as [Hin Hf]. apply andb_true_iff in Hf as [Hfile Hsel].
      split; [exact Hin|]. split; [exact Hfile|].
      apply existsb_exists in Hsel as [d [Hd Hstart]]. exists d.
      split; [|exact Hstart]. exact (selection_within_folders _ _ _ Hhost E d Hd).
    - rewrite (instructions_after_abort _ _ _ _ _ E) in Hi. destruct Hi. }
  split; [exact Hmain|].
  intros f Hout Hin. apply in_map_iff in Hin as [i [<- Hi]].
  destruct (Hmain i Hi) as [_ [_ [d [Hd Hstart]]]].
  assert (isFileInSelectedFolder (source i) (getBainFolders files) = true)
    by (apply existsb_exists; now exists d).
  congruence.
Qed.

(** The read-me beside the folders is left alone. *)
Lemma only_files_under_bain_folders_witness :
  let L := [js "readme.txt"; js "00 Core/"; js "00 Core/plugin.esp"] in
  let answer := {| action := js "Continue"; input := [(js "00 Core/", true)] |} in
  let context := {| api := {| showDialog := fun _ _ _ _ => Return answer |} |} in
  ~ In (js "readme.txt")
      (List.map source
         (instructionsOf (snd (installContent (js "/home/user") (fun arg => arg) L context)))).
Proof.
  intros L answer context.
  refine (proj2 (only_files_under_bain_folders (js "/home/user") (fun arg => arg) L context _)
            (js "readme.txt") eq_refl).
  intros result [= <-] entry Hin. simpl in Hin.
  destruct Hin as [<- | []]. left. reflexivity.
Defined.

(** ** Listings of plain paths *)

Lemma hasPlainFiles_file files f :
  hasPlainFiles files = true -> In f files -> isFile f = true -> isPlainPath f = true.
Proof.
  unfold hasPlainFiles. rewrite forallb_forall. intros H Hin Hfile.
  specialize (H f Hin). now rewrite Hfile in H.
Qed.

(** The instruction of a kept file whose path is plain: the source is the
    containing folder followed by the destination. *)
Lemma plain_instruction cwd files selectedFolders f :
  incl selectedFolders (getBainFolders files) ->
  In f (keptFiles files selectedFolders) ->
  isPlainPath f = true ->
  exists d,
    In d selectedFolders /\
    f = d ++ destination (instructionFor cwd selectedFolders f) /\
    isPlainPath (destination (instructionFor cwd selectedFolders f)) = true.
Proof.
  intros Hincl Hkept Hplain.
  apply filter_In in Hkept as [_ Hkept]. apply andb_true_iff in Hkept as [_ Hsel].
  apply existsb_exists in Hsel as [d [Hd Hstart]]. exists d. split; [exact Hd|].
  pose proof (getBainFolders_topLevelDirectory files selectedFolders Hincl) as HT.
  unfold instructionFor. simpl.
  rewrite (find_containing_folder f selectedFolders d HT Hd Hstart).
  apply Hincl in Hd. unfold getBainFolders in Hd.
  apply filter_In in Hd as [_ Hd]. apply andb_true_iff in Hd as [Htop Hpat].
  apply isTopLevelDirectory_shape in Htop as [name [-> Hn]].
  rewrite pattern_test_topLevelDirectory in Hpat.
  apply startsWith_prefix in Hstart as [rest ->].
  assert (Hrest : isPlainPath rest = true).
  { unfold isPlainPath in *. rewrite <- app_assoc in Hplain. simpl in Hplain.
    rewrite split_app_sep, forallb_app in Hplain.
    now apply andb_true_iff in Hplain as [_ Hplain]. }
  rewrite (relative_strips_folder cwd name rest Hn (pattern_name_plain name Hpat) Hrest).
  split; [reflexivity | exact Hrest].
Qed.

(** X8: for a listing whose files are plain paths and a host that answers
    for the checkboxes it was given, every source is a BAIN folder of the
    listing followed by the destination, and the destination is itself a
    plain path: it is not empty and no portion of it is [..]. *)
Theorem source_is_folder_and_destination
  (cwd : jsstring) (userCanceledMessage : jsstring -> jsstring)
  (files : list jsstring) (context : Context) :
  honoursDialog context (getBainFolders files) ->
  hasPlainFiles files = true ->
  forall i,
    In i (instructionsOf (snd (installContent cwd userCanceledMessage files context))) ->
    exists d,
      In d (getBainFolders files) /\
      source i = d ++ destination i /\
      isPlainPath (destination i) = true.
Proof.
  intros Hhost Hplain i Hi.
  destruct (showFolderSelectionDialog (getBainFolders files) context) as [S|e] eqn:E.
  - rewrite (instructions_after_selection _ _ _ _ _ E) in Hi.
    apply in_map_iff in Hi as [f [<- Hf]].
    pose proof (selection_within_folders _ _ _ Hhost E) as Hincl.
    assert (Hfp : isPlainPath f = true).
    { apply filter_In in Hf as [Hin Hk]. apply andb_true_iff in Hk as [Hfile _].
      exact (hasPlainFiles_file files f Hplain Hin Hfile). }
    destruct (plain_instruction cwd files S f Hincl Hf Hfp) as [d [Hd [Hsrc Hdst]]].
    exists d. split; [now apply Hincl|]. split; [exact Hsrc | exact Hdst].
  - rewrite (instructions_after_abort _ _ _ _ _ E) in Hi. destruct Hi.
Qed.

(** [00 Core/meshes/a.nif] is [00 Core/] followed by [meshes/a.nif]. *)
Lemma source_is_folder_and_destination_witness :
  let L := [js "00 Core/"; js "00 Core/meshes/"; js "00 Core/meshes/a.nif"] in
  let answer := {| action := js "Continue"; input := [(js "00 Core/", true)] |} in
  let context := {| api := {| showDialog := fun _ _ _ _ => Return answer |} |} in
  let i := {| instr_type := js "copy";
              source := js "00 Core/meshes/a.nif";
              destination := js "meshes/a.nif" |} in
  exists d, In d (getBainFolders L) /\ source i = d ++ destination i
            /\ isPlainPath (destination i) = true.
Proof.
  intros L answer context i.
  refine (source_is_folder_and_destination (js "/home/user") (fun arg => arg) L context
            _ eq_refl i (or_introl eq_refl)).
  intros result [= <-] entry Hin. simpl in Hin.
  destruct Hin as [<- | []]. left. reflexivity.
Defined.

(** X9: for such a listing and host, what [installContent] resolves with
    depends neither on the working directory of the process nor on the
    message of the cancellation error. *)
Theorem result_independent_of_cwd
  (cwd cwd' : jsstring) (userCanceledMessage userCanceledMessage' : jsstring -> jsstring)
  (files : list jsstring) (context : Context) :
  honoursDialog context (getBainFolders files) ->
  hasPlainFiles files = true ->
  snd (installContent cwd userCanceledMessage files context)
  = snd (installContent cwd' userCanceledMessage' files context).
Proof.
  intros Hhost Hplain.
  destruct (showFolderSelectionDialog (getBainFolders files) context) as [S|e] eqn:E.
  - rewrite !(installContent_after_selection _ _ files context S E).
    do 2 f_equal. apply map_ext_in. intros f Hf.
    pose proof (selection_within_folders _ _ _ Hhost E) as Hincl.
    assert (Hfp : isPlainPath f = true).
    { pose proof Hf as Hf'. apply filter_In in Hf' as [Hin Hk].
      apply andb_true_iff in Hk as [Hfile _].
      exact (hasPlainFiles_file files f Hplain Hin Hfile). }
    destruct (plain_instruction cwd files S f Hincl Hf Hfp) as [d [Hd [Hsrc _]]].
    destruct (plain_instruction cwd' files S f Hincl Hf Hfp) as [d' [Hd' [Hsrc' _]]].
    assert (d = d').
    { pose proof (getBainFolders_topLevelDirectory files S Hincl) as HT.
      rewrite Forall_forall in HT.
      apply (containing_folder_unique f); auto; apply startsWith_prefix; eauto. }
    subst d'. rewrite Hsrc in Hsrc' at 1. apply app_inv_head in Hsrc'.
    unfold instructionFor in *. simpl in *. now f_equal.
  - exact (abort_outcome_independent cwd userCanceledMessage cwd' userCanceledMessage'
             files context e E).
Qed.

(** The same installation run from two working directories. *)
Lemma result_independent_of_cwd_witness :
  let L := [js "00 Core/"; js "00 Core/plugin.esp"] in
  let answer := {| action := js "Continue"; input := [(js "00 Core/", true)] |} in
  let context := {| api := {| showDialog := fun _ _ _ _ => Return answer |} |} in
  snd (installContent (js "/home/user") (fun arg => arg) L context)
  = snd (installContent (js "/") (fun _ => js "canceled by user") L context).
Proof.
  intros L answer context.
  refine (result_independent_of_cwd _ _ _ _ L context _ eq_refl).
  intros result [= <-] entry Hin. simpl in Hin.
  destruct Hin as [<- | []]. left. reflexivity.
Defined.

(** X10: for such a listing and host, two instructions whose sources lie in
    the same top-level directory never share a destination unless they copy
    the same entry. *)
Theorem destinations_distinct_within_folder
  (cwd : jsstring) (userCanceledMessage : jsstring -> jsstring)
  (files : list jsstring) (context : Context) (d : jsstring) (i1 i2 : Instruction) :
  honoursDialog context (getBainFolders files) ->
  hasPlainFiles files = true ->
  In i1 (instructionsOf (snd (installContent cwd userCanceledMessage files context))) ->
  In i2 (instructionsOf (snd (installContent cwd userCanceledMessage files context))) ->
  isTopLevelDirectory d = true ->
  startsWith (source i1) d = true ->
  startsWith (source i2) d = true ->
  destination i1 = destination i2 ->
  source i1 = source i2.
Proof.
  intros Hhost Hplain H1 H2 Hd Hs1 Hs2 Hdest.
  assert (Hone : forall i,
      In i (instructionsOf (snd (installContent cwd userCanceledMessage files context))) ->
      startsWith (source i) d = true -> source i = d ++ destination i).
  { intros i Hi Hs.
    destruct (showFolderSelectionDialog (getBainFolders files) context) as [S|e] eqn:E.
    - rewrite (instructions_after_selection _ _ _ _ _ E) in Hi.
      apply in_map_iff in Hi as [f [<- Hf]].
      pose proof (selection_within_folders _ _ _ Hhost E) as Hincl.
      assert (Hfp : isPlainPath f = true).
      { pose proof Hf as Hf'. apply filter_In in Hf' as [Hin Hk].
        apply andb_true_iff in Hk as [Hfile _].
        exact (hasPlainFiles_file files f Hplain Hin Hfile). }
      destruct (plain_instruction cwd files S f Hincl Hf Hfp) as [d' [Hd' [Hsrc _]]].
      assert (d' = d).
      { pose proof (getBainFolders_topLevelDirectory files S Hincl) as HT.
        rewrite Forall_forall in HT.
        apply (containing_folder_unique f); auto.
        apply startsWith_prefix; eauto. }
      subst d'. exact Hsrc.
    - rewrite (instructions_after_abort _ _ _ _ _ E) in Hi. destruct Hi. }
  rewrite (Hone i1 H1 Hs1), (Hone i2 H2 Hs2). now rewrite Hdest.
Qed.

(** Two copies under [00 Core/] with one destination copy one entry. *)
Lemma destinations_distinct_within_folder_witness :
  let i := {| instr_type := js "copy";
              source := js "00 Core/plugin.esp";
              destination := js "plugin.esp" |} in
  source i = source i.
Proof.
  intro i.
  pose (L := [js "00 Core/"; js "00 Core/plugin.esp"]).
  pose (answer := {| action := js "Continue"; input := [(js "00 Core/", true)] |}).
  pose (context := {| api := {| showDialog := fun _ _ _ _ => Return answer |} |}).
  refine (destinations_distinct_within_folder (js "/home/user") (fun arg => arg)
            L context (js "00 Core/") i i _ eq_refl
            (or_introl eq_refl) (or_introl eq_refl) eq_refl eq_refl eq_refl eq_refl).
  intros result [= <-] entry Hin. simpl in Hin.
  destruct Hin as [<- | []]. left. reflexivity.
Defined.

(** ** The log *)

Lemma installContent_log_after_selection cwd ucm files context selectedFolders :
  showFolderSelectionDialog (getBainFolders files) context = Return selectedFolders ->
  installContent cwd ucm files context
  = ([(Debug, Text (js "BAIN folders: " ++ join (js ", ") (getBainFolders files)));
      (Debug, Text (js "Selected folders: " ++ join (js ", ") selectedFolders));
      (Debug, Text (js "Filtered files: "
                    ++ join (js ", ") (keptFiles files selectedFolders)));
      (Debug, TextWithJson (js "Generated instructions: ")
                (List.map (instructionFor cwd selectedFolders)
                   (keptFiles files selectedFolders)))],
     Resolved (InstructionsObject
                 (List.map (instructionFor cwd selectedFolders)
                    (keptFiles files selectedFolders)))).
Proof.
  intro H. unfold installContent. rewrite H. cbv beta iota zeta.
  fold (keptFiles files selectedFolders).
  rewrite (mapM_total _ (instructionFor cwd selectedFolders)); [reflexivity|].
  intros file Hin. apply filter_In in Hin as [_ Hin].
  apply andb_true_iff in Hin as [_ Hin].
  destruct (find_when_some_matches file selectedFolders Hin) as [d Hd].
  unfold getRelativePath, instructionFor. now rewrite Hd.
Qed.

(** X11: the log of an installation begins with the debug line of the BAIN
    folders; it holds an entry at error level exactly when the installation
    resolves with the bare empty array, and then it has two entries;
    otherwise it has four debug entries, the last one carrying the
    instructions that are returned. *)
Theorem log_follows_outcome
  (cwd : jsstring) (userCanceledMessage : jsstring -> jsstring)
  (files : list jsstring) (context : Context) :
  let logs := fst (installContent cwd userCanceledMessage files context) in
  let outcome := snd (installContent cwd userCanceledMessage files context) in
  hd_error logs
  = Some (Debug, Text (js "BAIN folders: " ++ join (js ", ") (getBainFolders files))) /\
  (existsb isErrorEntry logs = true <-> outcome = Resolved EmptyArray) /\
  (outcome = Resolved EmptyArray -> List.length logs = 2%nat) /\
  (forall instructions,
      outcome = Resolved (InstructionsObject instructions) ->
      List.length logs = 4%nat /\
      nth_error logs 3
      = Some (Debug, TextWithJson (js "Generated instructions: ") instructions)).
Proof.
  intros logs outcome. subst logs outcome.
  destruct (showFolderSelectionDialog (getBainFolders files) context) as [S|e] eqn:E.
  - rewrite (installContent_log_after_selection cwd userCanceledMessage files context S E).
    simpl. split; [reflexivity|]. split; [split; discriminate|].
    split; [discriminate|]. intros instructions [= <-]. now split.
  - unfold installContent. rewrite E. cbv beta zeta.
    destruct (errorMessage userCanceledMessage e) as [message|raised]; simpl.
    + split; [reflexivity|]. split; [now split|].
      split; [reflexivity | discriminate].
    + split; [reflexivity|]. split; [split; discriminate|].
      split; discriminate.
Qed.

(** A cancelled installation logs two entries. *)
Lemma log_follows_outcome_witness :
  let L := [js "00 Core/"; js "00 Core/plugin.esp"] in
  let cancel := {| action := js "Cancel"; input := [(js "00 Core/", true)] |} in
  let context := {| api := {| showDialog := fun _ _ _ _ => Return cancel |} |} in
  List.length (fst (installContent (js "/home/user") (fun arg => arg) L context)) = 2%nat.
Proof.
  intros L cancel context.
  exact (proj1 (proj2 (proj2 (log_follows_outcome (js "/home/user") (fun arg => arg)
                                L context))) eq_refl).
Defined.

(** ** Confirming the dialog as offered *)

Lemma later_checkboxes_unticked (bainFolders : list jsstring) : forall start,
  List.map (fun box => (cb_id box, cb_value box))
    (mapi_from (S start)
       (fun folder index =>
          {| cb_id := folder;
             cb_text := Path.basename folder;
             cb_value := Nat.eqb index 0 |}) bainFolders)
  = List.map (fun folder => (folder, false)) bainFolders.
Proof.
  induction bainFolders as [|x l IH]; intro start; simpl; [reflexivity|].
  now rewrite IH.
Qed.

Lemma defaultInput_first first others :
  defaultInput (dialogContent (first :: others))
  = (first, true) :: List.map (fun folder => (folder, false)) others.
Proof.
  unfold defaultInput, dialogContent, dialogCheckboxes, mapi. simpl.
  now rewrite later_checkboxes_unticked.
Qed.

Lemma none_selected_of_unticked (folders : list jsstring) :
  filter (fun entry : jsstring * bool => snd entry)
    (List.map (fun folder => (folder, false)) folders) = [].
Proof. induction folders as [|x l IH]; [reflexivity | exact IH]. Qed.

(** X12: when the detector reports support and the user confirms the
    dialog with the ticks as they were offered, the selection is the first
    BAIN folder of the listing alone, and the installer resolves with an
    instructions object whose sources are the files of the listing that
    begin with that folder, in order. *)
Theorem default_confirmation_installs_first_folder
  (cwd : jsstring) (userCanceledMessage : jsstring -> jsstring)
  (files : list jsstring) (context : Context) (gameId chosen : jsstring) :
  testSupportedContent files gameId
  = Resolved {| supported := true; requiredFiles := [] |} ->
  chosen <> js "Cancel" ->
  showDialog (api context) (js "question") (js "Choose BAIN Options")
    (dialogContent (getBainFolders files)) dialogActions
  = Return {| action := chosen;
              input := defaultInput (dialogContent (getBainFolders files)) |} ->
  exists first instructions,
    hd_error (getBainFolders files) = Some first /\
    showFolderSelectionDialog (getBainFolders files) context = Return [first] /\
    snd (installContent cwd userCanceledMessage files context)
    = Resolved (InstructionsObject instructions) /\
    List.map source instructions
    = filter (fun file => isFile file && startsWith file first) files.
Proof.
  intros Hsup Hchosen Hdlg.
  unfold testSupportedContent in Hsup. injection Hsup as Hsup.
  apply andb_true_iff in Hsup as [_ Hsome].
  destruct (getBainFolders files) as [|first others] eqn:HB; [discriminate Hsome|].
  assert (Hsel : showFolderSelectionDialog (first :: others) context = Return [first]).
  { rewrite showFolderSelectionDialog_answer, Hdlg. simpl bind.
    unfold selectionOf. simpl action. simpl input.
    rewrite defaultInput_first.
    destruct (strictEq chosen (js "Cancel")) eqn:Ec;
      [apply strictEq_eq in Ec; contradiction|].
    simpl. now rewrite none_selected_of_unticked. }
  exists first, (List.map (instructionFor cwd [first]) (keptFiles files [first])).
  split; [reflexivity|]. split; [exact Hsel|].
  rewrite <- HB in Hsel.
  split; [exact (installContent_after_selection cwd userCanceledMessage files context _ Hsel)|].
  rewrite map_map. simpl. rewrite map_id. unfold keptFiles.
  apply filter_ext. intro file. unfold isFileInSelectedFolder. simpl.
  now rewrite orb_false_r.
Qed.

(** The first scenario, confirmed as offered. *)
Lemma default_confirmation_installs_first_folder_witness :
  let L := [js "00 Core/"; js "00 Core/plugin.esp";
            js "01 Optional/"; js "01 Optional/readme.txt"] in
  let answer := {| action := js "Continue";
                   input := [(js "00 Core/", true); (js "01 Optional/", false)] |} in
  let context := {| api := {| showDialog := fun _ _ _ _ => Return answer |} |} in
  exists first instructions,
    hd_error (getBainFolders L) = Some first /\
    showFolderSelectionDialog (getBainFolders L) context = Return [first] /\
    snd (installContent (js "/home/user") (fun arg => arg) L context)
    = Resolved (InstructionsObject instructions) /\
    List.map source instructions
    = filter (fun file => isFile file && startsWith file first) L.
Proof.
  intros L answer context.
  apply (default_confirmation_installs_first_folder (js "/home/user") (fun arg => arg)
           L context (js "morrowind") (js "Continue")).
  - reflexivity.
  - discriminate.
  - reflexivity.
Defined.

(** ** Paths that climb out of their folder *)

Lemma segs_eqb_eq a : forall b, Path.segs_eqb a b = true -> a = b.
Proof.
  induction a as [|x a IH]; intros [|y b] H; simpl in *; try discriminate; auto.
  apply andb_true_iff in H as [Hx H]. apply strictEq_eq in Hx. f_equal; auto.
Qed.

Lemma dropCommon_app common a b :
  Path.dropCommon (common ++ a) (common ++ b) = Path.dropCommon a b.
Proof.
  induction common as [|x common IH]; simpl; [reflexivity|].
  now rewrite strictEq_refl.
Qed.

Lemma resolve_relative_entry cwd c name' tail :
  Path.isSep c = false ->
  Path.resolve cwd ((c :: name') ++ tail)
  = Path.normalizeSegments (Path.split (cwd ++ Path.sep :: (c :: name') ++ tail)).
Proof. intro Hc. unfold Path.resolve. simpl app. cbv beta iota. now rewrite Hc. Qed.

Lemma normalize_folder cwd name :
  ~ In Path.sep name -> isPlainSeg name = true ->
  Path.normalizeSegments (Path.split cwd ++ [name])
  = Path.normalizeSegments (Path.split cwd) ++ [name].
Proof.
  intros Hn Hp. unfold Path.normalizeSegments. rewrite fold_left_app.
  apply normalize_plain. simpl. now rewrite Hp.
Qed.

Lemma normalize_folder_slash cwd name :
  ~ In Path.sep name -> isPlainSeg name = true ->
  Path.normalizeSegments (Path.split cwd ++ @app jsstring [name] [[]])
  = Path.normalizeSegments (Path.split cwd) ++ [name].
Proof.
  intros Hn Hp. rewrite app_assoc. unfold Path.normalizeSegments at 1.
  rewrite fold_left_app.
  change (fold_left Path.normalizeStep (Path.split cwd ++ [name]) [])
    with (Path.normalizeSegments (Path.split cwd ++ [name])).
  now rewrite (normalize_folder cwd name Hn Hp).
Qed.

Lemma normalize_up_and_down cwd name segs :
  ~ In Path.sep name -> isPlainSeg name = true ->
  forallb isPlainSeg segs = true ->
  Path.normalizeSegments
    (Path.split cwd ++ @app jsstring [name] (@app jsstring [[Path.dot; Path.dot]] segs))
  = Path.normalizeSegments (Path.split cwd) ++ segs.
Proof.
  intros Hn Hp Hs. rewrite app_assoc. unfold Path.normalizeSegments at 1.
  rewrite fold_left_app.
  change (fold_left Path.normalizeStep (Path.split cwd ++ [name]) [])
    with (Path.normalizeSegments (Path.split cwd ++ [name])).
  rewrite (normalize_folder cwd name Hn Hp). simpl.
  unfold Path.normalizeStep at 2. simpl.
  rewrite removelast_snoc. now apply normalize_plain.
Qed.

(** X13: the installer does not confine destinations to the staging
    folder.  Under a selected BAIN folder [d], a file whose path first goes
    up with [..] and then follows a plain path that does not re-enter [d]
    is sent to [..] followed by that path. *)
Theorem dotdot_destination_leaves_folder
  (cwd : jsstring) (folders : list jsstring) (d rest : jsstring) :
  Forall (fun x => isTopLevelDirectory x = true) folders ->
  In d folders ->
  isBainFolder d = true ->
  isPlainPath rest = true ->
  firstSegment rest <> Path.basename d ->
  getRelativePath cwd (d ++ js "../" ++ rest) folders = Return (js "../" ++ rest).
Proof.
  intros HT Hin Hd Hr Hfirst.
  rewrite (getRelativePath_containing cwd _ folders d HT Hin (startsWith_app d _)).
  f_equal.
  rewrite <- bain_filter_agrees in Hd. apply andb_true_iff in Hd as [Ht Hpat].
  apply isTopLevelDirectory_shape in Ht as [name [-> Hn]].
  rewrite pattern_test_topLevelDirectory in Hpat.
  rewrite basename_topLevelDirectory in Hfirst by exact Hn.
  pose proof (pattern_name_plain name Hpat) as Hp.
  unfold Path.relative.
  destruct (strictEq _ _) eqn:E.
  { apply strictEq_eq in E. rewrite <- (app_nil_r (name ++ [Path.sep])) in E at 1.
    apply app_inv_head in E. discriminate E. }
  destruct name as [|c name']; [discriminate Hp|].
  pose proof (head_not_sep c name' Hn) as Hc.
  rewrite <- !app_assoc.
  rewrite !(resolve_relative_entry cwd c name' _ Hc).
  change (js "../" ++ rest) with ([Path.dot; Path.dot] ++ Path.sep :: rest).
  simpl ([Path.sep] ++ _).
  rewrite !split_app_sep, (split_single _ Hn).
  change (Path.dot :: Path.dot :: Path.sep :: rest)
    with ([Path.dot; Path.dot] ++ Path.sep :: rest).
  rewrite split_app_sep, (split_single [Path.dot; Path.dot])
    by (intros [H | [H | []]]; discriminate H).
  simpl (Path.split []).
  rewrite (normalize_folder_slash cwd (c :: name') Hn Hp).
  rewrite (normalize_up_and_down cwd (c :: name') (Path.split rest) Hn Hp Hr).
  unfold firstSegment in Hfirst.
  destruct (Path.split rest) as [|seg segs] eqn:Hs; [now apply split_nonempty in Hs|].
  simpl in Hfirst.
  destruct (Path.segs_eqb _ _) eqn:Es.
  { apply segs_eqb_eq, app_inv_head in Es. congruence. }
  rewrite dropCommon_app.
  change (Path.dropCommon [c :: name'] (seg :: segs))
    with (if strictEq (c :: name') seg
          then Path.dropCommon [] segs
          else ([c :: name'], seg :: segs)).
  destruct (strictEq (c :: name') seg) eqn:En.
  { apply strictEq_eq in En. congruence. }
  cbn [List.map app].
  rewrite join_cons by discriminate.
  now rewrite <- Hs, join_split.
Qed.

(** [00 Core/../x.esp] is sent to [../x.esp]. *)
Lemma dotdot_destination_leaves_folder_witness :
  getRelativePath (js "/home/user") (js "00 Core/" ++ js "../" ++ js "x.esp")
                  [js "00 Core/"]
  = Return (js "../" ++ js "x.esp").
Proof.
  apply (dotdot_destination_leaves_folder (js "/home/user")
           [js "00 Core/"] (js "00 Core/") (js "x.esp")).
  - repeat constructor.
  - left. reflexivity.
  - reflexivity.
  - reflexivity.
  - discriminate.
Defined.
